(** * ETL-Core: the database engine factory and the logging set-up

    A shallow embedding of [src/databases/factory.py] and
    [src/utils/log_utils.py], and the properties of the two that the
    specification states.

    Conventions.
    - A Python [str] is a Rocq [string], read as a sequence of code points
      below 256.  On that range [lower], [isspace] and [strip] agree with
      CPython's tables.
    - Calls that leave the module (Airflow hooks, SQLAlchemy engines and
      connections, the logger) are recorded in a trace of events; their
      outcomes are supplied by the objects themselves, which are records of
      functions, the way a test double supplies them.
    - An exception is a value; [Exn] stands for the instances of Python's
      [Exception]. *)

From Stdlib Require Import List String Ascii NArith ZArith Bool Lia.
Import ListNotations.
Open Scope string_scope.
Open Scope list_scope.

(** ** Python strings *)

Definition code (c : ascii) : N := N_of_ascii c.

Definition between (lo hi n : N) : bool := ((lo <=? n) && (n <=? hi))%N.

(** [c.isspace()] for a single code point: TAB..CR, FS..US, SPACE, NEL, NBSP. *)
Definition isspace (c : ascii) : bool :=
  let n := code c in
  (between 9 13 n || between 28 32 n || (n =? 133) || (n =? 160))%N.

(** [c.lower()]: A..Z and the Latin-1 capitals (all of U+00C0..U+00DE but the
    multiplication sign U+00D7) move up by 32. *)
Definition lower_char (c : ascii) : ascii :=
  let n := code c in
  if (between 65 90 n || (between 192 222 n && negb (n =? 215)))%N
  then ascii_of_N (n + 32)
  else c.

Fixpoint lower (s : string) : string :=
  match s with
  | EmptyString => EmptyString
  | String c t => String (lower_char c) (lower t)
  end.

(** [c.upper()].  a..z and the Latin-1 small letters (U+00E0..U+00FE but the
    division sign U+00F7) move down by 32 and the sharp s becomes [SS].  The
    micro sign and the y with diaeresis, whose capitals lie above U+00FF, are
    kept as they are. *)
Definition upper_char (c : ascii) : string :=
  let n := code c in
  if (between 97 122 n || (between 224 254 n && negb (n =? 247)))%N
  then String (ascii_of_N (n - 32)) EmptyString
  else if (n =? 223)%N then "SS"
  else String c EmptyString.

Fixpoint upper (s : string) : string :=
  match s with
  | EmptyString => EmptyString
  | String c t => String.append (upper_char c) (upper t)
  end.

Fixpoint lstrip (s : string) : string :=
  match s with
  | EmptyString => EmptyString
  | String c t => if isspace c then lstrip t else s
  end.

Fixpoint rstrip (s : string) : string :=
  match s with
  | EmptyString => EmptyString
  | String c t =>
      match rstrip t with
      | EmptyString => if isspace c then EmptyString else String c EmptyString
      | r => String c r
      end
  end.

(** [s.strip()] *)
Definition strip (s : string) : string := rstrip (lstrip s).

(** Truth value of a [str]: non-empty. *)
Definition str_truthy (s : string) : bool :=
  match s with EmptyString => false | String _ _ => true end.

Fixpoint all_space (s : string) : bool :=
  match s with
  | EmptyString => true
  | String c t => isspace c && all_space t
  end.

(** ** Values, dictionaries, exceptions *)

Inductive Value : Type :=
| VNone
| VBool (b : bool)
| VInt (z : Z)
| VStr (s : string).

(** A [dict] with [str] keys, in insertion order. *)
Definition Dict (V : Type) : Type := list (string * V).

Fixpoint dict_get {V} (k : string) (d : Dict V) : option V :=
  match d with
  | [] => None
  | (k', v) :: d' => if String.eqb k' k then Some v else dict_get k d'
  end.

(** [d[k] = v]: an existing key keeps its place, a new key goes last. *)
Fixpoint dict_set {V} (k : string) (v : V) (d : Dict V) : Dict V :=
  match d with
  | [] => [(k, v)]
  | (k', v') :: d' =>
      if String.eqb k' k then (k', v) :: d' else (k', v') :: dict_set k v d'
  end.

(** [list(d.keys())] *)
Definition dict_keys {V} (d : Dict V) : list string := map fst d.

Definition dict_mem {V} (k : string) (d : Dict V) : bool :=
  match dict_get k d with Some _ => true | None => false end.

Fixpoint distinct (l : list string) : bool :=
  match l with
  | [] => true
  | k :: t => negb (existsb (String.eqb k) t) && distinct t
  end.

(** Keys of a [dict] are pairwise distinct. *)
Definition dict_wf {V} (d : Dict V) : bool := distinct (dict_keys d).

Definition count_key {V} (k : string) (d : Dict V) : nat :=
  List.length (filter (fun p => String.eqb (fst p) k) d).

Definition Options : Type := Dict Value.

(** [o or {}] for an [Optional[Dict]]: [None] and the empty dict are falsy. *)
Definition or_empty (o : option Options) : Options :=
  match o with
  | None => []
  | Some [] => []
  | Some (kv :: d) => kv :: d
  end.

Inductive ExnClass : Type :=
| ValueError
| AirflowNotFoundException
| SQLAlchemyError
| OtherException (name : string).

(** An exception instance: its class and its message.  A message is kept as
    the pieces of the f-string that builds it. *)
Inductive Exn : Type :=
| MkExn (cls : ExnClass) (msg : list Part)
with Part : Type :=
| Lit (s : string)
| FStr (s : string)
| FList (l : list string)
| FExn (e : Exn).

Definition exn_cls (e : Exn) : ExnClass := match e with MkExn c _ => c end.
Definition exn_msg (e : Exn) : list Part := match e with MkExn _ m => m end.

(** ** External objects *)

Record Connection : Type := {
  conn_name : string;
  (** [connection.execute(stmt)]: [None] when the statement runs. *)
  execute : string -> option Exn
}.

Record Engine : Type := {
  engine_name : string;
  connect : Exn + Connection
}.

Record Hook : Type := {
  hook_name : string;
  get_sqlalchemy_engine : Options -> Exn + Engine
}.

(** A concrete subclass of [DatabaseStrategy]: what its [create_hook] does.
    As a class object it is true, so [not strategy_cls] holds only of the
    [None] a failed lookup gives. *)
Record StrategyCls : Type := {
  cls_name : string;
  create_hook : string -> Options -> Exn + Hook
}.

Inductive LogLevel : Type := DEBUG | INFO | ERROR.

Inductive LogArg : Type :=
| AStr (s : string)
| AExn (e : Exn).

Inductive Event : Type :=
| Instantiate (cls : string)
| CreateHook (cls : string) (conn_id : string) (hook_options : Options)
| GetSqlalchemyEngine (hook : string) (engine_kwargs : Options)
| Connect (engine : string)
| Execute (conn : string) (sql : string)
| Close (conn : string)
| Dispose (engine : string)
| Log (level : LogLevel) (fmt : string) (args : list LogArg).

(** ** Computations: a trace of events and an outcome *)

Definition M (A : Type) : Type := list Event * (Exn + A).

Definition ret {A} (a : A) : M A := ([], inr a).
Definition raise {A} (e : Exn) : M A := ([], inl e).

Definition bind {A B} (m : M A) (k : A -> M B) : M B :=
  match m with
  | (t, inl e) => (t, inl e)
  | (t, inr a) => let (t', r) := k a in (t ++ t', r)
  end.

Notation "x <- m ;; k" := (bind m (fun x => k))
  (at level 61, m at next level, right associativity).
Notation "m ;;; k" := (bind m (fun _ => k))
  (at level 61, right associativity).

Definition emit (ev : Event) : M unit := ([ev], inr tt).

(** A call to an external object: recorded, then its outcome. *)
Definition call {A} (ev : Event) (r : Exn + A) : M A := ([ev], r).

Definition of_option (o : option Exn) : Exn + unit :=
  match o with Some e => inl e | None => inr tt end.

(** [try: m  except Exception as err: h err] *)
Definition try_except {A} (m : M A) (h : Exn -> M A) : M A :=
  match m with
  | (t, inl e) => let (t', r) := h e in (t ++ t', r)
  | (t, inr a) => (t, inr a)
  end.

(** [with acquire as x: body x], the context manager's exit being the single
    call [release x]. *)
Definition with_as {A B} (acquire : M A) (release : A -> Event) (body : A -> M B) : M B :=
  x <- acquire ;;
  match body x with
  | (t, r) => (t ++ [release x], r)
  end.

Definition trace {A} (m : M A) : list Event := fst m.
Definition outcome {A} (m : M A) : Exn + A := snd m.

(** ** src/databases/factory.py *)

Definition text (sql : string) : string := sql.

Definition _validate_connection (engine : Engine) (conn_id : string) : M unit :=
  try_except
    (with_as (call (Connect (engine_name engine)) (connect engine))
             (fun connection => Close (conn_name connection))
             (fun connection =>
                call (Execute (conn_name connection) (text "SELECT 1"))
                     (of_option (execute connection (text "SELECT 1")))) ;;;
     emit (Log DEBUG "Connection test passed for '%s'." [AStr conn_id]))
    (fun err => raise (MkExn SQLAlchemyError [Lit "Connection test failed: "; FExn err])).

Definition create_validated_engine (self : StrategyCls) (conn_id : string)
    (hook_options sqlalchemy_options : Options) : M Engine :=
  if negb (str_truthy conn_id) || negb (str_truthy (strip conn_id)) then
    raise (MkExn ValueError [Lit "Connection ID (conn_id) cannot be None or empty."])
  else
    try_except
      (hook <- call (CreateHook (cls_name self) conn_id hook_options)
                    (create_hook self conn_id hook_options) ;;
       engine <- call (GetSqlalchemyEngine (hook_name hook) sqlalchemy_options)
                      (get_sqlalchemy_engine hook sqlalchemy_options) ;;
       emit (Log INFO "Successfully created engine for connection: '%s'" [AStr conn_id]) ;;;
       _validate_connection engine conn_id ;;;
       ret engine)
      (fun err =>
         match exn_cls err with
         | AirflowNotFoundException =>
             emit (Log ERROR "Airflow connection ID '%s' not found." [AStr conn_id]) ;;;
             raise err
         | SQLAlchemyError =>
             emit (Log ERROR "Failed to create or validate engine for '%s'. Error: %s"
                       [AStr conn_id; AExn err]) ;;;
             raise err
         | _ => raise err
         end).

(** [f(kw=v, **rest)]: a keyword given twice is a [TypeError]. *)
Definition call_kwargs {A} (f : Options -> Exn + A) (kw : string) (v : Value)
    (rest : Options) : Exn + A :=
  if dict_mem kw rest
  then inl (MkExn (OtherException "TypeError")
                  [Lit "got multiple values for keyword argument "; FStr kw])
  else f ((kw, v) :: rest).

Definition Registry : Type := Dict StrategyCls.

Definition register_strategy (db_type : string) (strategy_cls : StrategyCls)
    (_registry : Registry) : Registry :=
  dict_set (lower db_type) strategy_cls _registry.

Definition get_engine (_registry : Registry) (db_type conn_id : string)
    (hook_options sqlalchemy_options : option Options) : M Engine :=
  let hook_options := or_empty hook_options in
  let sqlalchemy_options := or_empty sqlalchemy_options in
  match dict_get (lower db_type) _registry with
  | None =>
      let valid_types := dict_keys _registry in
      raise (MkExn ValueError
               [Lit "Unsupported database type: '"; FStr db_type;
                Lit "'. Supported types: "; FList valid_types])
  | Some strategy_cls =>
      emit (Instantiate (cls_name strategy_cls)) ;;;
      create_validated_engine strategy_cls conn_id hook_options sqlalchemy_options
  end.

Section Strategies.
(** The constructors of Airflow's two hooks, called with keyword arguments. *)
Variable PostgresHook MsSqlHook : Options -> Exn + Hook.

Definition PostgresStrategy : StrategyCls :=
  {| cls_name := "PostgresStrategy";
     create_hook := fun conn_id hook_options =>
       call_kwargs PostgresHook "postgres_conn_id" (VStr conn_id) hook_options |}.

Definition MsSqlStrategy : StrategyCls :=
  {| cls_name := "MsSqlStrategy";
     create_hook := fun conn_id hook_options =>
       call_kwargs MsSqlHook "mssql_conn_id" (VStr conn_id) hook_options |}.

(** The registry once the module is imported. *)
Definition module_registry : Registry :=
  register_strategy "mssql" MsSqlStrategy
    (register_strategy "postgres" PostgresStrategy []).
End Strategies.

(** ** Test doubles *)

Definition fake_connection (probe : option Exn) : Connection :=
  {| conn_name := "conn"; execute := fun _ => probe |}.

Definition fake_engine (c : Exn + Connection) : Engine :=
  {| engine_name := "engine"; connect := c |}.

Definition fake_hook (e : Exn + Engine) : Hook :=
  {| hook_name := "hook"; get_sqlalchemy_engine := fun _ => e |}.

Definition fake_strategy (name : string) (h : Exn + Hook) : StrategyCls :=
  {| cls_name := name; create_hook := fun _ _ => h |}.

(** A backend whose probe always succeeds. *)
Definition healthy (name : string) : StrategyCls :=
  fake_strategy name (inr (fake_hook (inr (fake_engine (inr (fake_connection None)))))).

Definition refused : Exn := MkExn (OtherException "OperationalError") [Lit "connection refused"].
Definition not_found : Exn :=
  MkExn AirflowNotFoundException [Lit "The conn_id `conn1` isn't defined"].

(** A backend whose engine cannot open a connection. *)
Definition unreachable (name : string) : StrategyCls :=
  fake_strategy name (inr (fake_hook (inr (fake_engine (inl refused))))).

(** A backend whose connection opens but whose query fails. *)
Definition broken (name : string) : StrategyCls :=
  fake_strategy name
    (inr (fake_hook (inr (fake_engine (inr (fake_connection (Some refused))))))).

Definition unknown_conn (name : string) : StrategyCls :=
  fake_strategy name (inl not_found).

(** ** Vocabulary of the statements *)

(** The outcome of the liveness probe of [_validate_connection] on an engine:
    [None] when the connection opens and [SELECT 1] runs. *)
Definition probe (engine : Engine) : option Exn :=
  match connect engine with
  | inl e => Some e
  | inr c => execute c (text "SELECT 1")
  end.

Definition is_close (ev : Event) : bool :=
  match ev with Close _ => true | _ => false end.

Definition is_dispose (ev : Event) : bool :=
  match ev with Dispose _ => true | _ => false end.

Definition count (p : Event -> bool) (t : list Event) : nat :=
  List.length (filter p t).

Definition conn_id_error : Exn :=
  MkExn ValueError [Lit "Connection ID (conn_id) cannot be None or empty."].

Definition unsupported_error (db_type : string) (valid_types : list string) : Exn :=
  MkExn ValueError
    [Lit "Unsupported database type: '"; FStr db_type;
     Lit "'. Supported types: "; FList valid_types].

Definition validation_error (cause : Exn) : Exn :=
  MkExn SQLAlchemyError [Lit "Connection test failed: "; FExn cause].

(** What a call does once the registry has resolved the class. *)
Definition dispatch (strategy_cls : StrategyCls) (conn_id : string)
    (hook_options sqlalchemy_options : option Options) : M Engine :=
  emit (Instantiate (cls_name strategy_cls)) ;;;
  create_validated_engine strategy_cls conn_id
    (or_empty hook_options) (or_empty sqlalchemy_options).

Fixpoint sorted (l : list string) : bool :=
  match l with
  | a :: (b :: _) as t => String.leb a b && sorted t
  | _ => true
  end.

Fixpoint insert_sorted (k : string) (l : list string) : list string :=
  match l with
  | [] => [k]
  | a :: t => if String.leb k a then k :: l else a :: insert_sorted k t
  end.

(** [sorted(names)] *)
Definition sort_names (l : list string) : list string :=
  fold_right insert_sorted [] l.

(** Names in the order they are first seen. *)
Definition add_key (ks : list string) (k : string) : list string :=
  if existsb (fun k' => String.eqb k' k) ks then ks else ks ++ [k].

Definition register_all (regs : list (string * StrategyCls)) (r : Registry) : Registry :=
  fold_left (fun r p => register_strategy (fst p) (snd p) r) regs r.

(** ** src/etl_core/utils/file_system.py and src/utils/log_utils.py *)

(** Values an attribute of the [logging] module can hold. *)
Inductive PyObj : Type :=
| PInt (z : Z)
| PStr (s : string)
| PObj (repr : string).

(** A [Union[str, Path]] argument. *)
Inductive PathLike : Type :=
| AsStr (s : string)
| AsPath (p : string).

Definition path_str (p : PathLike) : string :=
  match p with AsStr s => s | AsPath s => s end.

(** Truth value of an [Optional[Union[str, Path]]]: a [Path] is always true. *)
Definition path_truthy (o : option PathLike) : bool :=
  match o with
  | None => false
  | Some (AsStr s) => str_truthy s
  | Some (AsPath _) => true
  end.

(** What lies outside the two modules: the attribute table of the [logging]
    module and its level names, and the file system. *)
Record Env : Type := {
  (** [getattr(logging, name)]; [None] is [AttributeError]. *)
  logging_attr : string -> option PyObj;
  (** [logging._nameToLevel] *)
  nameToLevel : string -> option Z;
  (** [Path(p).resolve()] *)
  resolve : string -> string;
  (** [path.parent] *)
  parent : string -> string;
  (** [path.exists()] *)
  path_exists : string -> bool;
  (** [path.mkdir(parents=True, exist_ok=True)]; [None] when it succeeds. *)
  mkdir : string -> option Exn;
  (** Opening the log file for appending; [None] when it succeeds. *)
  open_append : string -> option Exn
}.

Inductive Formatter : Type :=
| MkFormatter (fmt datefmt : string).

Inductive HandlerKind : Type :=
| StreamHandler (stream : string)
| RotatingFileHandler (filename : string) (maxBytes backupCount : Z)
| OtherHandler (name : string).

Record Handler : Type := {
  kind : HandlerKind;
  hlevel : Z;
  formatter : option Formatter
}.

Record Logger : Type := {
  lname : string;
  level : Z;
  handlers : list Handler;
  propagate : bool
}.

(** The state of the [logging] module: the root logger and the loggers of
    [Logger.manager.loggerDict].  A placeholder there counts as no entry:
    [getLogger] puts a new logger in its place. *)
Record Logging : Type := {
  root : Logger;
  loggerDict : Dict Logger
}.

(** A reference to a logger object. *)
Inductive Ref : Type :=
| RootLogger
| Named (name : string).

Inductive Effect : Type :=
| Print (parts : list Part)
| Mkdir (path : string)
| OpenAppend (path : string).

Definition NOTSET : Z := 0.
Definition INFO_code : Z := 20.

(** [Logger(name)] *)
Definition new_logger (name : string) : Logger :=
  {| lname := name; level := NOTSET; handlers := []; propagate := true |}.

Definition deref (st : Logging) (r : Ref) : Logger :=
  match r with
  | RootLogger => root st
  | Named n =>
      match dict_get n (loggerDict st) with
      | Some l => l
      | None => new_logger n
      end
  end.

Definition update (r : Ref) (f : Logger -> Logger) (st : Logging) : Logging :=
  match r with
  | RootLogger => {| root := f (root st); loggerDict := loggerDict st |}
  | Named n =>
      {| root := root st;
         loggerDict := dict_set n (f (deref st r)) (loggerDict st) |}
  end.

Definition set_level (z : Z) (l : Logger) : Logger :=
  {| lname := lname l; level := z; handlers := handlers l; propagate := propagate l |}.

Definition set_propagate (b : bool) (l : Logger) : Logger :=
  {| lname := lname l; level := level l; handlers := handlers l; propagate := b |}.

(** [logger.addHandler(h)] with a handler just built: it goes last. *)
Definition add_handler (h : Handler) (l : Logger) : Logger :=
  {| lname := lname l; level := level l; handlers := handlers l ++ [h];
     propagate := propagate l |}.

(** Truth value of [logger.handlers]. *)
Definition has_handlers (l : Logger) : bool :=
  match handlers l with [] => false | _ :: _ => true end.

(** Computations on the logging state: effects, new state, outcome. *)
Definition L (A : Type) : Type := Logging -> list Effect * Logging * (Exn + A).

Definition lret {A} (a : A) : L A := fun st => ([], st, inr a).

Definition lbind {A B} (m : L A) (k : A -> L B) : L B := fun st =>
  match m st with
  | (o, st', inl e) => (o, st', inl e)
  | (o, st', inr a) =>
      match k a st' with
      | (o', st'', r) => (o ++ o', st'', r)
      end
  end.

Notation "x <~ m ;; k" := (lbind m (fun x => k))
  (at level 61, m at next level, right associativity).
Notation "m ;;> k" := (lbind m (fun _ => k))
  (at level 61, right associativity).

Definition effect (ev : Effect) : L unit := fun st => ([ev], st, inr tt).
Definition lift {A} (r : Exn + A) : L A := fun st => ([], st, r).
Definition modify (f : Logging -> Logging) : L unit := fun st => ([], f st, inr tt).
Definition read {A} (f : Logging -> A) : L A := fun st => ([], st, inr (f st)).
Definition when (b : bool) (m : L unit) : L unit := if b then m else lret tt.

(** [logging.getLogger(name)]: the root logger for an empty name and for the
    root's own name, else the logger of that name, made on first use. *)
Definition getLogger (name : string) : L Ref := fun st =>
  if negb (str_truthy name) || String.eqb name (lname (root st)) then
    ([], st, inr RootLogger)
  else
    match dict_get name (loggerDict st) with
    | Some _ => ([], st, inr (Named name))
    | None =>
        ([], {| root := root st;
                loggerDict := dict_set name (new_logger name) (loggerDict st) |},
         inr (Named name))
    end.

Section SetupLogging.
Variable env : Env.

(** [logging._checkLevel] *)
Definition _checkLevel (lv : PyObj) : Exn + Z :=
  match lv with
  | PInt z => inr z
  | PStr s =>
      match nameToLevel env s with
      | Some z => inr z
      | None => inl (MkExn ValueError [Lit "Unknown level: "; FStr s])
      end
  | PObj r =>
      inl (MkExn (OtherException "TypeError")
             [Lit "Level not an integer or a valid string: "; FStr r])
  end.

(** [logger.setLevel(lv)] *)
Definition setLevel (logger : Ref) (lv : PyObj) : L unit :=
  z <~ lift (_checkLevel lv) ;;
  modify (update logger (set_level z)).

(** A handler just built, after [setLevel] and [setFormatter]. *)
Definition configured (k : HandlerKind) (lv : PyObj) (f : Formatter) : L Handler :=
  z <~ lift (_checkLevel lv) ;;
  lret {| kind := k; hlevel := z; formatter := Some f |}.

(** [FileSystem._normalize] *)
Definition _normalize (path : string) : string := resolve env path.

(** [FileSystem.create_directory] *)
Definition create_directory (directory_path : string) : L string :=
  let path := _normalize directory_path in
  when (negb (path_exists env path))
       (effect (Mkdir path) ;;> lift (of_option (mkdir env path))) ;;>
  lret path.

Definition setup_logging (logger_name level : string)
    (log_file : option PathLike) (max_file_size backup_count : Z)
    (enable_console prevent_duplicates : bool) : L Ref :=
  log_level_code <~
    match logging_attr env (upper level) with
    | Some v => lret v
    | None =>
        effect (Print [Lit "Invalid log level '"; FStr level;
                       Lit "'. Defaulting to INFO."]) ;;>
        lret (PInt INFO_code)
    end ;;
  logger <~ getLogger logger_name ;;
  setLevel logger log_level_code ;;>
  populated <~ read (fun st => has_handlers (deref st logger)) ;;
  if populated then lret logger
  else
    when prevent_duplicates (modify (update logger (set_propagate false))) ;;>
    let formatter :=
      MkFormatter "%(asctime)s - %(name)s - %(levelname)s - %(message)s"
                  "%Y-%m-%d %H:%M:%S" in
    when enable_console
      (console_handler <~ configured (StreamHandler "sys.stdout")
                            log_level_code formatter ;;
       modify (update logger (add_handler console_handler))) ;;>
    when (path_truthy log_file)
      (let file := match log_file with Some p => path_str p | None => EmptyString end in
       let log_dir := parent env (_normalize file) in
       create_directory log_dir ;;>
       effect (OpenAppend file) ;;>
       lift (of_option (open_append env file)) ;;>
       file_handler <~ configured (RotatingFileHandler file max_file_size backup_count)
                         log_level_code formatter ;;
       modify (update logger (add_handler file_handler))) ;;>
    lret logger.
End SetupLogging.

(** The level the [level] argument stands for: the attribute of the [logging]
    module under its upper-cased name when that is a level, [INFO] when
    there is no such attribute. *)
Definition resolved_level (env : Env) (level : string) : Exn + Z :=
  match logging_attr env (upper level) with
  | Some v => _checkLevel env v
  | None => inr INFO_code
  end.

(** The logger a name stands for, when there is one already. *)
Definition existing_logger (st : Logging) (name : string) : option (Ref * Logger) :=
  if negb (str_truthy name) || String.eqb name (lname (root st)) then
    Some (RootLogger, root st)
  else
    match dict_get name (loggerDict st) with
    | Some l => Some (Named name, l)
    | None => None
    end.

(** The standard level names. *)
Definition std_levels : Dict Z :=
  [("CRITICAL", 50); ("FATAL", 50); ("ERROR", 40); ("WARN", 30);
   ("WARNING", 30); ("INFO", 20); ("DEBUG", 10); ("NOTSET", 0)]%Z.

(** An environment with the module's level constants and [BASIC_FORMAT], an
    upper-case attribute of the module that is no level, and a file system
    in which every directory exists. *)
Definition std_env : Env :=
  {| logging_attr := fun name =>
       match dict_get name std_levels with
       | Some z => Some (PInt z)
       | None =>
           if String.eqb name "BASIC_FORMAT"
           then Some (PStr "%(levelname)s:%(name)s:%(message)s")
           else None
       end;
     nameToLevel := fun name => dict_get name std_levels;
     resolve := fun p => p;
     parent := fun p => p;
     path_exists := fun _ => true;
     mkdir := fun _ => None;
     open_append := fun _ => None |}.

Definition console : Handler :=
  {| kind := StreamHandler "sys.stdout"; hlevel := 20;
     formatter := Some (MkFormatter "%(asctime)s - %(name)s - %(levelname)s - %(message)s"
                                    "%Y-%m-%d %H:%M:%S") |}.

(** The logging state after a first [setup_logging("etl")]. *)
Definition after_first_call : Logging :=
  {| root := {| lname := "root"; level := 30; handlers := []; propagate := true |};
     loggerDict := [("etl", {| lname := "etl"; level := 20; handlers := [console];
                               propagate := false |})] |}.

(** ** src/etl_core/utils/file_system.py: the other methods *)

Module FileSystem.

(** Calls that change or list the file system. *)
Inductive Call : Type :=
| PathMkdir (path : string)
| PathRename (src dst : string)
| PathUnlink (path : string)
| PathRmdir (path : string)
| Rmtree (path : string)
| PathGlob (root pattern : string).

(** The file system as the methods see it: the answers to their queries and
    the outcomes of their calls, [None] standing for success. *)
Record Ops : Type := {
  base : Env;
  (** [path.is_file()] *)
  is_file_at : string -> bool;
  (** [path.is_dir()] *)
  is_dir_at : string -> bool;
  (** [src.rename(dst)], which returns the new path *)
  rename : string -> string -> Exn + string;
  (** [path.unlink()] *)
  unlink : string -> option Exn;
  (** [path.rmdir()] *)
  rmdir : string -> option Exn;
  (** [shutil.rmtree(path)] *)
  rmtree : string -> option Exn;
  (** [list(root.glob(pattern))] *)
  glob : string -> string -> Exn + list string
}.

Definition F (A : Type) : Type := list Call * (Exn + A).

Definition fret {A} (a : A) : F A := ([], inr a).
Definition fraise {A} (e : Exn) : F A := ([], inl e).
Definition fcall {A} (c : Call) (r : Exn + A) : F A := ([c], r).

Definition fbind {A B} (m : F A) (k : A -> F B) : F B :=
  match m with
  | (t, inl e) => (t, inl e)
  | (t, inr a) => match k a with (t', r) => (t ++ t', r) end
  end.

(** [try: m  except OSError: h], other exceptions passing through. *)
Definition ftry {A} (m : F A) (catches : Exn -> bool) (h : F A) : F A :=
  match m with
  | (t, inl e) =>
      if catches e then match h with (t', r) => (t ++ t', r) end else (t, inl e)
  | (t, inr a) => (t, inr a)
  end.

(** [OSError] and its built-in subclasses. *)
Definition OSError_family : list string :=
  ["OSError"; "BlockingIOError"; "ChildProcessError"; "ConnectionError";
   "BrokenPipeError"; "ConnectionAbortedError"; "ConnectionRefusedError";
   "ConnectionResetError"; "FileExistsError"; "FileNotFoundError";
   "InterruptedError"; "IsADirectoryError"; "NotADirectoryError";
   "PermissionError"; "ProcessLookupError"; "TimeoutError"].

Definition is_OSError (e : Exn) : bool :=
  match exn_cls e with
  | OtherException name => existsb (String.eqb name) OSError_family
  | _ => false
  end.

Section Methods.
Variable fs : Ops.

(** [FileSystem.exists] *)
Definition exists_ (target : string) : bool :=
  path_exists (base fs) (_normalize (base fs) target).

Definition is_file (target : string) : bool :=
  is_file_at fs (_normalize (base fs) target).

Definition is_directory (target : string) : bool :=
  is_dir_at fs (_normalize (base fs) target).

Definition move (source destination : string) : F string :=
  let src_path := _normalize (base fs) source in
  let dest_path := _normalize (base fs) destination in
  if negb (path_exists (base fs) src_path) then
    fraise (MkExn (OtherException "FileNotFoundError")
              [Lit "Cannot move: Source not found at '"; FStr src_path; Lit "'"])
  else
    fbind
      (if negb (path_exists (base fs) (parent (base fs) dest_path))
       then fcall (PathMkdir (parent (base fs) dest_path))
                  (of_option (mkdir (base fs) (parent (base fs) dest_path)))
       else fret tt)
      (fun _ => fcall (PathRename src_path dest_path) (rename fs src_path dest_path)).

Definition find (root_directory file_pattern : string) : F (list string) :=
  let root := _normalize (base fs) root_directory in
  if path_exists (base fs) root && is_dir_at fs root
  then fcall (PathGlob root file_pattern) (glob fs root file_pattern)
  else fret [].

Definition remove (target : string) : F bool :=
  let path := _normalize (base fs) target in
  if negb (path_exists (base fs) path) then fret false
  else
    fbind
      (if is_file_at fs path then
         fcall (PathUnlink path) (of_option (unlink fs path))
       else if is_dir_at fs path then
         ftry (fcall (PathRmdir path) (of_option (rmdir fs path)))
              is_OSError
              (fcall (Rmtree path) (of_option (rmtree fs path)))
       else fret tt)
      (fun _ => fret true).
End Methods.

End FileSystem.

(** ** More vocabulary *)



Definition is_error_log (ev : Event) : bool :=
  match ev with Log ERROR _ _ => true | _ => false end.

(** Whether the handlers of [create_validated_engine] log an exception. *)
Definition logged (err : Exn) : bool :=
  match exn_cls err with
  | AirflowNotFoundException | SQLAlchemyError => true
  | _ => false
  end.

(** The error line a logged exception leaves. *)
Definition error_log (conn_id : string) (err : Exn) : list Event :=
  match exn_cls err with
  | AirflowNotFoundException =>
      [Log ERROR "Airflow connection ID '%s' not found." [AStr conn_id]]
  | SQLAlchemyError =>
      [Log ERROR "Failed to create or validate engine for '%s'. Error: %s"
           [AStr conn_id; AExn err]]
  | _ => []
  end.

Definition log_formatter : Formatter :=
  MkFormatter "%(asctime)s - %(name)s - %(levelname)s - %(message)s"
              "%Y-%m-%d %H:%M:%S".

(** The handlers [setup_logging] builds. *)
Definition console_at (z : Z) : Handler :=
  {| kind := StreamHandler "sys.stdout"; hlevel := z; formatter := Some log_formatter |}.

Definition file_at (file : string) (max_file_size backup_count z : Z) : Handler :=
  {| kind := RotatingFileHandler file max_file_size backup_count; hlevel := z;
     formatter := Some log_formatter |}.

(** The class of the last registration, in a sequence of them, whose name
    has a given lower-cased form. *)
Fixpoint last_registered (regs : list (string * StrategyCls)) (k : string)
  : option StrategyCls :=
  match regs with
  | [] => None
  | (n, c) :: regs' =>
      match last_registered regs' k with
      | Some c' => Some c'
      | None => if String.eqb (lower n) k then Some c else None
      end
  end.

(** The reference [getLogger(name)] returns and the state it leaves, in which
    the logger exists. *)
Definition ref_of (st : Logging) (name : string) : Ref :=
  if negb (str_truthy name) || String.eqb name (lname (root st))
  then RootLogger else Named name.

Definition ensure (st : Logging) (name : string) : Logging :=
  match ref_of st name with
  | RootLogger => st
  | Named n =>
      match dict_get n (loggerDict st) with
      | Some _ => st
      | None => {| root := root st;
                   loggerDict := dict_set n (new_logger n) (loggerDict st) |}
      end
  end.

(** The logger [getLogger(name)] returns. *)
Definition the_logger (st : Logging) (name : string) : Logger :=
  deref (ensure st name) (ref_of st name).

(** What a call prints about its [level] argument. *)
Definition level_prints (env : Env) (level_name : string) : list Effect :=
  match logging_attr env (upper level_name) with
  | Some _ => []
  | None => [Print [Lit "Invalid log level '"; FStr level_name;
                    Lit "'. Defaulting to INFO."]]
  end.

Definition file_of (log_file : option PathLike) : string :=
  match log_file with Some p => path_str p | None => EmptyString end.

(** The directory [setup_logging] makes sure of for a log file. *)
Definition log_dir_of (env : Env) (file : string) : string :=
  _normalize env (parent env (_normalize env file)).

(** The file-system calls made for the file handler and the exception they
    end in, if any. *)
Definition file_steps (env : Env) (log_file : option PathLike)
  : list Effect * option Exn :=
  if path_truthy log_file then
    let file := file_of log_file in
    let dir := log_dir_of env file in
    if path_exists env dir then ([OpenAppend file], open_append env file)
    else
      match mkdir env dir with
      | Some e => ([Mkdir dir], Some e)
      | None => ([Mkdir dir; OpenAppend file], open_append env file)
      end
  else ([], None).

(** The handlers a call asks for. *)
Definition wanted_handlers (z : Z) (log_file : option PathLike)
    (max_file_size backup_count : Z) (enable_console : bool) : list Handler :=
  (if enable_console then [console_at z] else [])
  ++ (if path_truthy log_file
      then [file_at (file_of log_file) max_file_size backup_count z] else []).

(** ** src/constants/environments.py and src/etl_core/constants/audit_fields.py *)

Module Enum.

Record Member : Type := { name : string; value : string }.

(** An enumeration class: its members in definition order, and
    [__members__], which maps every name, aliases too, to its member. *)
Record Class : Type := {
  cname : string;
  members : list Member;
  member_map : Dict Member
}.

(** The member with a given value, if any. *)
Definition by_value (ms : list Member) (v : string) : option Member :=
  List.find (fun m => String.eqb (value m) v) ms.

(** One [NAME = value] line of the class body: a value seen before makes
    the name an alias of the member that has it. *)
Definition add (c : Class) (line : string * string) : Class :=
  match by_value (members c) (snd line) with
  | Some m =>
      {| cname := cname c; members := members c;
         member_map := dict_set (fst line) m (member_map c) |}
  | None =>
      let m := {| name := fst line; value := snd line |} in
      {| cname := cname c; members := members c ++ [m];
         member_map := dict_set (fst line) m (member_map c) |}
  end.

(** [class cls(StrEnum): body] *)
Definition define (cls : string) (body : list (string * string)) : Class :=
  fold_left add body {| cname := cls; members := []; member_map := [] |}.

(** [cls(value)] *)
Definition call (c : Class) (v : string) : Exn + Member :=
  match by_value (members c) v with
  | Some m => inr m
  | None => inl (MkExn ValueError [FStr v; Lit " is not a valid "; FStr (cname c)])
  end.

(** [cls.NAME] *)
Definition attr (c : Class) (n : string) : option Member :=
  dict_get n (member_map c).

End Enum.

Definition Environment : Enum.Class :=
  Enum.define "Environment"
              [("LOCAL", "local"); ("DEVELOPMENT", "development"); ("UAT", "uat");
               ("PREPRODUCTION", "preproduction"); ("PRODUCTION", "production")].

Definition AuditField : Enum.Class :=
  Enum.define "AuditField"
    [("CREATED_BY_SYSTEM", "system"); ("UPDATED_BY_SYSTEM", "system")].

(** A file system given by its files and directories, in which every call
    succeeds but [rmdir], which fails on the directories listed as full. *)
Definition fake_fs (files dirs full : list string) : FileSystem.Ops :=
  {| FileSystem.base :=
       {| logging_attr := logging_attr std_env;
          nameToLevel := nameToLevel std_env;
          resolve := fun p => p;
          parent := fun _ => "/data/archive";
          path_exists := fun p => existsb (String.eqb p) (files ++ dirs);
          mkdir := fun _ => None;
          open_append := fun _ => None |};
     FileSystem.is_file_at := fun p => existsb (String.eqb p) files;
     FileSystem.is_dir_at := fun p => existsb (String.eqb p) dirs;
     FileSystem.rename := fun _ dst => inr dst;
     FileSystem.unlink := fun _ => None;
     FileSystem.rmdir := fun p =>
       if existsb (String.eqb p) full
       then Some (MkExn (OtherException "OSError") [Lit "Directory not empty"])
       else None;
     FileSystem.rmtree := fun _ => None;
     FileSystem.glob := fun _ _ => inr files |}.

(** ** Strings *)

Lemma rstrip_empty (s : string) : rstrip s = EmptyString <-> all_space s = true.
Proof.
  induction s as [|c t IH]; simpl.
  - split; reflexivity.
  - destruct (rstrip t) eqn:E.
    + destruct (isspace c); simpl.
      * split; intros _; [apply IH|]; reflexivity.
      * split; discriminate.
    + split; [discriminate|].
      intros H. apply andb_true_iff in H. destruct H as [_ H].
      apply IH in H. discriminate.
Qed.

Lemma all_space_lstrip (s : string) : all_space (lstrip s) = all_space s.
Proof.
  induction s as [|c t IH]; simpl; [reflexivity|].
  destruct (isspace c) eqn:E; simpl; [exact IH|].
  now rewrite E.
Qed.

Lemma strip_empty (s : string) : strip s = EmptyString <-> all_space s = true.
Proof. unfold strip. rewrite rstrip_empty. now rewrite all_space_lstrip. Qed.

(** The guard of [create_validated_engine] holds exactly of the empty and the
    whitespace-only identifiers. *)
Lemma blank_guard (s : string) :
  negb (str_truthy s) || negb (str_truthy (strip s)) = all_space s.
Proof.
  destruct (all_space s) eqn:E.
  - apply strip_empty in E. rewrite E. simpl. apply orb_true_r.
  - destruct s as [|c t]; [discriminate|]. simpl str_truthy. simpl negb.
    destruct (strip (String c t)) eqn:S; [|reflexivity].
    apply strip_empty in S. congruence.
Qed.

(** ** Dictionaries *)

Lemma dict_get_set_same {V} (k : string) (v : V) (d : Dict V) :
  dict_get k (dict_set k v d) = Some v.
Proof.
  induction d as [|[k' v'] d IH]; simpl.
  - now rewrite String.eqb_refl.
  - destruct (String.eqb k' k) eqn:E; simpl; rewrite E; [reflexivity|exact IH].
Qed.

Lemma dict_get_set_other {V} (k j : string) (v : V) (d : Dict V) :
  k <> j -> dict_get j (dict_set k v d) = dict_get j d.
Proof.
  intros Hne. induction d as [|[k' v'] d IH]; simpl.
  - destruct (String.eqb_spec k j); [contradiction|reflexivity].
  - destruct (String.eqb_spec k' k) as [->|]; simpl.
    + destruct (String.eqb_spec k j); [contradiction|reflexivity].
    + now rewrite IH.
Qed.

Lemma dict_mem_keys {V} (k : string) (d : Dict V) :
  dict_mem k d = existsb (fun k' => String.eqb k' k) (dict_keys d).
Proof.
  unfold dict_mem. induction d as [|[k' v'] d IH]; simpl; [reflexivity|].
  destruct (String.eqb k' k); [reflexivity|exact IH].
Qed.

Lemma dict_keys_set {V} (k : string) (v : V) (d : Dict V) :
  dict_keys (dict_set k v d) = add_key (dict_keys d) k.
Proof.
  unfold add_key. induction d as [|[k' v'] d IH]; simpl; [reflexivity|].
  destruct (String.eqb k' k) eqn:E; simpl; [reflexivity|].
  rewrite IH. now destruct (existsb _ (dict_keys d)).
Qed.

Lemma dict_set_length_mem {V} (k : string) (v : V) (d : Dict V) :
  dict_mem k d = true -> List.length (dict_set k v d) = List.length d.
Proof.
  unfold dict_mem. induction d as [|[k' v'] d IH]; simpl; [discriminate|].
  destruct (String.eqb k' k); simpl; [reflexivity|].
  intros H. now rewrite IH.
Qed.

Lemma count_key_absent {V} (k : string) (d : Dict V) :
  existsb (String.eqb k) (dict_keys d) = false -> count_key k d = 0.
Proof.
  unfold count_key. induction d as [|[k' v'] d IH]; simpl; [reflexivity|].
  intros H. apply orb_false_iff in H. destruct H as [H1 H2].
  rewrite String.eqb_sym, H1. now apply IH.
Qed.

Lemma count_key_set {V} (k : string) (v : V) (d : Dict V) :
  dict_wf d = true -> count_key k (dict_set k v d) = 1.
Proof.
  unfold dict_wf, count_key. induction d as [|[k' v'] d IH]; simpl.
  - now rewrite String.eqb_refl.
  - intros H. apply andb_true_iff in H. destruct H as [Hk Hd].
    apply negb_true_iff in Hk.
    destruct (String.eqb_spec k' k) as [->|Hne]; simpl.
    + rewrite String.eqb_refl. simpl. f_equal.
      now apply (count_key_absent k d).
    + destruct (String.eqb_spec k' k); [contradiction|]. now apply IH.
Qed.

Lemma distinct_add_key (k : string) (ks : list string) :
  distinct ks = true -> distinct (add_key ks k) = true.
Proof.
  intros H. unfold add_key.
  destruct (existsb (fun k' => String.eqb k' k) ks) eqn:E; [exact H|].
  induction ks as [|a t IH]; simpl in *; [reflexivity|].
  apply andb_true_iff in H. destruct H as [Ha Ht].
  apply orb_false_iff in E. destruct E as [Eak Et].
  apply andb_true_iff. split; [|now apply IH].
  rewrite existsb_app. simpl. rewrite Eak, orb_false_r.
  apply negb_true_iff in Ha. rewrite Ha. reflexivity.
Qed.

Lemma dict_set_wf {V} (k : string) (v : V) (d : Dict V) :
  dict_wf d = true -> dict_wf (dict_set k v d) = true.
Proof. unfold dict_wf. rewrite dict_keys_set. apply distinct_add_key. Qed.

Lemma dict_set_set {V} (k : string) (v w : V) (d : Dict V) :
  dict_set k w (dict_set k v d) = dict_set k w d.
Proof.
  induction d as [|[k' v'] d IH]; simpl.
  - now rewrite String.eqb_refl.
  - destruct (String.eqb k' k) eqn:E; simpl; rewrite E; [reflexivity|now rewrite IH].
Qed.

Lemma register_all_keys (regs : list (string * StrategyCls)) (r : Registry) :
  dict_keys (register_all regs r)
  = fold_left add_key (map (fun p => lower (fst p)) regs) (dict_keys r).
Proof.
  revert r. induction regs as [|[n c] regs IH]; intros r; simpl; [reflexivity|].
  rewrite IH. unfold register_strategy. now rewrite dict_keys_set.
Qed.

(** ** The factory *)

Lemma get_engine_registered (reg : Registry) (db_type conn_id : string)
    (ho so : option Options) (cls : StrategyCls) :
  dict_get (lower db_type) reg = Some cls ->
  get_engine reg db_type conn_id ho so = dispatch cls conn_id ho so.
Proof. intros H. unfold get_engine, dispatch. now rewrite H. Qed.

Lemma get_engine_unregistered (reg : Registry) (db_type conn_id : string)
    (ho so : option Options) :
  dict_get (lower db_type) reg = None ->
  get_engine reg db_type conn_id ho so
  = ([], inl (unsupported_error db_type (dict_keys reg))).
Proof. intros H. unfold get_engine. now rewrite H. Qed.

Lemma create_validated_engine_blank (self : StrategyCls) (conn_id : string)
    (ho so : Options) :
  all_space conn_id = true ->
  create_validated_engine self conn_id ho so = ([], inl conn_id_error).
Proof. intros H. unfold create_validated_engine. now rewrite blank_guard, H. Qed.

Ltac run_factory :=
  unfold dispatch, create_validated_engine, _validate_connection, with_as,
    try_except, bind, call, emit, raise, ret, probe, of_option in *.

(** C1 (as the code has it).  An empty or whitespace-only connection
    identifier is rejected with [ValueError] by [create_validated_engine]:
    after the registry lookup and after the strategy class has been
    instantiated, but before [create_hook] or anything later is called.  When
    the type is not registered the lookup fails first, with the
    unsupported-type [ValueError]. *)
Theorem get_engine_blank_conn_id (reg : Registry) (db_type conn_id : string)
    (ho so : option Options) :
  all_space conn_id = true ->
  match dict_get (lower db_type) reg with
  | Some cls =>
      get_engine reg db_type conn_id ho so
      = ([Instantiate (cls_name cls)], inl conn_id_error)
  | None =>
      get_engine reg db_type conn_id ho so
      = ([], inl (unsupported_error db_type (dict_keys reg)))
  end.
Proof.
  intros Hblank. destruct (dict_get (lower db_type) reg) as [cls|] eqn:Hreg.
  - rewrite (get_engine_registered _ _ _ _ _ _ Hreg). unfold dispatch.
    now rewrite create_validated_engine_blank.
  - now apply get_engine_unregistered.
Qed.

Lemma get_engine_blank_conn_id_witness :
  all_space "  " = true /\
  get_engine [("alpha", healthy "Alpha")] "ALPHA" "  " None None
  = ([Instantiate "Alpha"], inl conn_id_error).
Proof.
  split; [reflexivity|].
  exact (get_engine_blank_conn_id [("alpha", healthy "Alpha")] "ALPHA" "  "
           None None eq_refl).
Defined.

(** C1, refuted as stated.  With a blank identifier the spy strategy is
    instantiated all the same, an unregistered type is reported instead of
    the identifier, and the message is the code's own: the identifier is
    checked after the lookup, inside the strategy. *)
Lemma blank_conn_id_is_checked_late :
  all_space "  " = true /\ all_space "" = true /\
  trace (get_engine [("alpha", healthy "Spy")] "alpha" "  " None None)
  = [Instantiate "Spy"] /\
  trace (get_engine [("alpha", healthy "Spy")] "alpha" "  " None None) <> [] /\
  outcome (get_engine [("alpha", healthy "Spy")] "beta" "" None None)
  = inl (unsupported_error "beta" ["alpha"]) /\
  outcome (get_engine [("alpha", healthy "Spy")] "beta" "" None None)
  <> inl conn_id_error /\
  outcome (get_engine [("alpha", healthy "Spy")] "alpha" "" None None)
  = inl (MkExn ValueError [Lit "Connection ID (conn_id) cannot be None or empty."]) /\
  outcome (get_engine [("alpha", healthy "Spy")] "alpha" "" None None)
  <> inl (MkExn ValueError [Lit "connection identifier must not be empty"]).
Proof. repeat split; try reflexivity; discriminate. Qed.

(** C2 (as the code has it).  When hook and engine are built and the probe
    fails with [cause], the call fails with [SQLAlchemyError] whose message
    wraps [cause].  The engine is never disposed of.  The connection opened for
    the probe is closed once, before the error is logged and raised, when
    [engine.connect()] had succeeded; nothing is closed when it had not. *)
Theorem probe_failure_wrapped (reg : Registry) (db_type conn_id : string)
    (ho so : option Options) (cls : StrategyCls) (hook : Hook)
    (engine : Engine) (cause : Exn) :
  dict_get (lower db_type) reg = Some cls ->
  all_space conn_id = false ->
  create_hook cls conn_id (or_empty ho) = inr hook ->
  get_sqlalchemy_engine hook (or_empty so) = inr engine ->
  probe engine = Some cause ->
  let run := get_engine reg db_type conn_id ho so in
  outcome run = inl (validation_error cause) /\
  trace run
  = [Instantiate (cls_name cls);
     CreateHook (cls_name cls) conn_id (or_empty ho);
     GetSqlalchemyEngine (hook_name hook) (or_empty so);
     Log INFO "Successfully created engine for connection: '%s'" [AStr conn_id];
     Connect (engine_name engine)]
    ++ match connect engine with
       | inl _ => []
       | inr c => [Execute (conn_name c) "SELECT 1"; Close (conn_name c)]
       end
    ++ [Log ERROR "Failed to create or validate engine for '%s'. Error: %s"
          [AStr conn_id; AExn (validation_error cause)]] /\
  count is_dispose (trace run) = 0 /\
  count is_close (trace run) = match connect engine with inl _ => 0 | inr _ => 1 end.
Proof.
  intros Hreg Hid Hhook Heng Hprobe run. subst run.
  rewrite (get_engine_registered _ _ _ _ _ _ Hreg).
  run_factory. rewrite blank_guard, Hid, Hhook, Heng. simpl.
  destruct (connect engine) as [e|c] eqn:Hc; simpl.
  - injection Hprobe as ->. repeat split.
  - unfold text in *. rewrite Hprobe. simpl. repeat split.
Qed.

Lemma probe_failure_wrapped_witness :
  all_space "conn1" = false /\
  probe (fake_engine (inr (fake_connection (Some refused)))) = Some refused /\
  outcome (get_engine [("alpha", broken "Alpha")] "alpha" "conn1" None None)
  = inl (validation_error refused) /\
  count is_close
    (trace (get_engine [("alpha", broken "Alpha")] "alpha" "conn1" None None)) = 1.
Proof.
  pose proof (probe_failure_wrapped [("alpha", broken "Alpha")] "alpha" "conn1"
                None None (broken "Alpha")
                (fake_hook (inr (fake_engine (inr (fake_connection (Some refused))))))
                (fake_engine (inr (fake_connection (Some refused)))) refused
                eq_refl eq_refl eq_refl eq_refl eq_refl) as H.
  split; [reflexivity|]. split; [reflexivity|].
  split; [exact (proj1 H)|exact (proj2 (proj2 (proj2 H)))].
Defined.

(** C2, refuted as stated.  An engine that cannot open a connection makes the
    probe raise; the call fails with the wrapping [SQLAlchemyError], and no
    close or dispose call has been made on anything. *)
Lemma probe_failure_nothing_released :
  probe (fake_engine (inl refused)) = Some refused /\
  outcome (get_engine [("alpha", unreachable "Alpha")] "alpha" "conn1" None None)
  = inl (validation_error refused) /\
  count is_dispose
    (trace (get_engine [("alpha", unreachable "Alpha")] "alpha" "conn1" None None)) = 0 /\
  count is_close
    (trace (get_engine [("alpha", unreachable "Alpha")] "alpha" "conn1" None None)) = 0 /\
  count (fun ev => is_close ev || is_dispose ev)
    (trace (get_engine [("alpha", unreachable "Alpha")] "alpha" "conn1" None None)) <> 1.
Proof. repeat split; try reflexivity. discriminate. Qed.

(** C3.  Whenever [get_engine] returns an engine, a connection to that engine
    was opened and [SELECT 1] ran on it without error, and these calls are in
    the trace of the call: no engine is returned unprobed. *)
Theorem returned_engine_probed (reg : Registry) (db_type conn_id : string)
    (ho so : option Options) (engine : Engine) :
  outcome (get_engine reg db_type conn_id ho so) = inr engine ->
  probe engine = None /\
  exists c pre post,
    connect engine = inr c /\
    execute c "SELECT 1" = None /\
    trace (get_engine reg db_type conn_id ho so)
    = pre ++ [Connect (engine_name engine); Execute (conn_name c) "SELECT 1";
              Close (conn_name c)] ++ post.
Proof.
  unfold get_engine.
  destruct (dict_get (lower db_type) reg) as [cls|]; [|discriminate].
  run_factory. rewrite blank_guard.
  destruct (all_space conn_id); simpl; [discriminate|].
  destruct (create_hook cls conn_id (or_empty ho)) as [e|hook]; simpl.
  { destruct (exn_cls e); discriminate. }
  destruct (get_sqlalchemy_engine hook (or_empty so)) as [e|eng]; simpl.
  { destruct (exn_cls e); discriminate. }
  destruct (connect eng) as [e|c] eqn:Hc; simpl; [discriminate|].
  unfold text. destruct (execute c "SELECT 1") as [e|] eqn:Hx; simpl; [discriminate|].
  intros H. injection H as <-. rewrite Hc, Hx. split; [reflexivity|].
  exists c.
  exists [Instantiate (cls_name cls); CreateHook (cls_name cls) conn_id (or_empty ho);
          GetSqlalchemyEngine (hook_name hook) (or_empty so);
          Log INFO "Successfully created engine for connection: '%s'" [AStr conn_id]].
  exists [Log DEBUG "Connection test passed for '%s'." [AStr conn_id]].
  split; [reflexivity|split; [exact Hx|reflexivity]].
Qed.

Lemma returned_engine_probed_witness :
  outcome (get_engine [("alpha", healthy "Alpha")] "ALPHA" "conn1" None None)
  = inr (fake_engine (inr (fake_connection None))) /\
  probe (fake_engine (inr (fake_connection None))) = None.
Proof.
  split; [reflexivity|].
  exact (proj1 (returned_engine_probed [("alpha", healthy "Alpha")] "ALPHA" "conn1"
                  None None (fake_engine (inr (fake_connection None))) eq_refl)).
Defined.

(** C4 (as the code has it).  When the lower-cased type name is not a key of
    the registry, the call fails with the unsupported-type [ValueError], which
    carries the requested name as it was written and [list(_registry.keys())]:
    the registered names, lower-cased, in the order in which they were first
    registered. *)
Theorem unsupported_type_lists_keys (r0 : Registry)
    (regs : list (string * StrategyCls)) (db_type conn_id : string)
    (ho so : option Options) :
  dict_get (lower db_type) (register_all regs r0) = None ->
  outcome (get_engine (register_all regs r0) db_type conn_id ho so)
  = inl (unsupported_error db_type (dict_keys (register_all regs r0))) /\
  dict_keys (register_all regs r0)
  = fold_left add_key (map (fun p => lower (fst p)) regs) (dict_keys r0).
Proof.
  intros H. split; [|apply register_all_keys].
  now rewrite (get_engine_unregistered _ _ _ _ _ H).
Qed.

Lemma unsupported_type_lists_keys_witness :
  dict_get (lower "beta") (register_all [("alpha", healthy "Alpha")] []) = None /\
  outcome (get_engine (register_all [("alpha", healthy "Alpha")] [])
             "beta" "conn1" (Some []) (Some []))
  = inl (unsupported_error "beta" ["alpha"]).
Proof.
  split; [reflexivity|].
  exact (proj1 (unsupported_type_lists_keys [] [("alpha", healthy "Alpha")]
                  "beta" "conn1" (Some []) (Some []) eq_refl)).
Defined.

(** C4, refuted as stated.  On the registry the module sets up at import,
    an unknown type is answered with the names in registration order,
    [postgres] before [mssql]: not the sorted list. *)
Lemma unsupported_type_keys_not_sorted :
  outcome (get_engine (module_registry (fun _ => inl not_found) (fun _ => inl not_found))
             "oracle" "conn1" None None)
  = inl (unsupported_error "oracle" ["postgres"; "mssql"]) /\
  sorted ["postgres"; "mssql"] = false /\
  sort_names ["postgres"; "mssql"] = ["mssql"; "postgres"] /\
  outcome (get_engine (module_registry (fun _ => inl not_found) (fun _ => inl not_found))
             "oracle" "conn1" None None)
  <> inl (unsupported_error "oracle"
            (sort_names (dict_keys (module_registry (fun _ => inl not_found)
                                      (fun _ => inl not_found))))).
Proof. repeat split; try reflexivity. discriminate. Qed.

(** C5.  When the lower-cased type name is not a key of the registry, the
    call fails with the unsupported-type [ValueError] and its trace is empty:
    no strategy class is instantiated and [create_hook], which resolves the
    credentials, is never called.  This holds of the empty name too. *)
Theorem unsupported_type_no_effect (reg : Registry) (db_type conn_id : string)
    (ho so : option Options) :
  dict_get (lower db_type) reg = None ->
  trace (get_engine reg db_type conn_id ho so) = [] /\
  exists err,
    outcome (get_engine reg db_type conn_id ho so) = inl err /\
    exn_cls err = ValueError /\
    err = unsupported_error db_type (dict_keys reg).
Proof.
  intros H. rewrite (get_engine_unregistered _ _ _ _ _ H).
  split; [reflexivity|]. eexists. repeat split.
Qed.

Lemma unsupported_type_no_effect_witness :
  dict_get (lower "Oracle") [("postgres", unknown_conn "Spy")] = None /\
  trace (get_engine [("postgres", unknown_conn "Spy")] "Oracle" "conn1" None None) = [].
Proof.
  split; [reflexivity|].
  exact (proj1 (unsupported_type_no_effect [("postgres", unknown_conn "Spy")]
                  "Oracle" "conn1" None None eq_refl)).
Defined.

(** C6.  [register_strategy] is an upsert on the lower-cased name.  After two
    registrations whose names agree up to case, the registry holds exactly
    one entry under the normalised name, the second registration added no
    entry, the entry is the second class, and every later [get_engine] under
    any spelling of the name runs that class.  Registering the same class
    again changes nothing. *)
Theorem register_strategy_upsert (reg : Registry) (n1 n2 : string)
    (c1 c2 : StrategyCls) :
  dict_wf reg = true ->
  lower n1 = lower n2 ->
  let reg1 := register_strategy n1 c1 reg in
  let reg2 := register_strategy n2 c2 reg1 in
  count_key (lower n1) reg2 = 1 /\
  dict_wf reg2 = true /\
  List.length reg2 = List.length reg1 /\
  dict_keys reg2 = dict_keys reg1 /\
  dict_get (lower n1) reg2 = Some c2 /\
  (forall db_type conn_id ho so,
     lower db_type = lower n1 ->
     get_engine reg2 db_type conn_id ho so = dispatch c2 conn_id ho so) /\
  register_strategy n2 c2 reg2 = reg2.
Proof.
  intros Hwf Hn reg1 reg2. subst reg1 reg2. unfold register_strategy.
  rewrite <- Hn. rewrite !dict_set_set.
  assert (Hmem : dict_mem (lower n1) (dict_set (lower n1) c1 reg) = true).
  { unfold dict_mem. now rewrite dict_get_set_same. }
  repeat split.
  - now apply count_key_set.
  - now apply dict_set_wf.
  - rewrite <- (dict_set_set (lower n1) c1 c2 reg).
    now apply dict_set_length_mem.
  - rewrite <- (dict_set_set (lower n1) c1 c2 reg) at 1.
    rewrite dict_keys_set. unfold add_key.
    now rewrite <- dict_mem_keys, Hmem.
  - apply dict_get_set_same.
  - intros db_type conn_id ho so Hd. apply get_engine_registered.
    rewrite Hd. apply dict_get_set_same.
Qed.

Lemma register_strategy_upsert_witness :
  dict_wf (module_registry (fun _ => inl not_found) (fun _ => inl not_found)) = true /\
  lower "Postgres" = lower "postgres" /\
  count_key "postgres"
    (register_strategy "postgres" (healthy "Second")
       (register_strategy "Postgres" (healthy "First")
          (module_registry (fun _ => inl not_found) (fun _ => inl not_found)))) = 1.
Proof.
  split; [reflexivity|]. split; [reflexivity|].
  exact (proj1 (register_strategy_upsert
                  (module_registry (fun _ => inl not_found) (fun _ => inl not_found))
                  "Postgres" "postgres" (healthy "First") (healthy "Second")
                  eq_refl eq_refl)).
Defined.

(** C7.  Dispatch is case-insensitive.  When a name is registered, a call
    under any spelling with the same lower-cased form is the same call: it
    runs the same strategy class with the same arguments, so it returns an
    engine whenever the call under the registered spelling does. *)
Theorem get_engine_case_insensitive (reg : Registry) (name variant conn_id : string)
    (ho so : option Options) (cls : StrategyCls) :
  dict_get (lower name) reg = Some cls ->
  lower variant = lower name ->
  get_engine reg variant conn_id ho so = dispatch cls conn_id ho so /\
  get_engine reg variant conn_id ho so = get_engine reg name conn_id ho so /\
  (forall engine,
     outcome (get_engine reg name conn_id ho so) = inr engine ->
     outcome (get_engine reg variant conn_id ho so) = inr engine).
Proof.
  intros Hreg Hv.
  assert (E : get_engine reg variant conn_id ho so = dispatch cls conn_id ho so).
  { apply get_engine_registered. now rewrite Hv. }
  rewrite E, (get_engine_registered _ _ _ _ _ _ Hreg).
  repeat split. intros engine H. exact H.
Qed.

Lemma get_engine_case_insensitive_witness :
  dict_get (lower "alpha") (register_strategy "alpha" (healthy "Alpha") [])
  = Some (healthy "Alpha") /\
  lower "ALPHA" = lower "alpha" /\
  outcome (get_engine (register_strategy "alpha" (healthy "Alpha") [])
             "ALPHA" "conn1" (Some []) (Some []))
  = inr (fake_engine (inr (fake_connection None))).
Proof.
  split; [reflexivity|]. split; [reflexivity|].
  exact (proj2 (proj2 (get_engine_case_insensitive
                         (register_strategy "alpha" (healthy "Alpha") [])
                         "alpha" "ALPHA" "conn1" (Some []) (Some [])
                         (healthy "Alpha") eq_refl eq_refl))
           (fake_engine (inr (fake_connection None))) eq_refl).
Defined.

(** C8.  When [create_hook] raises [AirflowNotFoundException], [get_engine]
    raises that very exception: the handler logs and re-raises it, nothing is
    wrapped, and no engine is asked for. *)
Theorem credential_error_propagates (reg : Registry) (db_type conn_id : string)
    (ho so : option Options) (cls : StrategyCls) (err : Exn) :
  dict_get (lower db_type) reg = Some cls ->
  all_space conn_id = false ->
  create_hook cls conn_id (or_empty ho) = inl err ->
  exn_cls err = AirflowNotFoundException ->
  outcome (get_engine reg db_type conn_id ho so) = inl err /\
  trace (get_engine reg db_type conn_id ho so)
  = [Instantiate (cls_name cls);
     CreateHook (cls_name cls) conn_id (or_empty ho);
     Log ERROR "Airflow connection ID '%s' not found." [AStr conn_id]].
Proof.
  intros Hreg Hid Hhook Hcls.
  rewrite (get_engine_registered _ _ _ _ _ _ Hreg).
  run_factory. rewrite blank_guard, Hid, Hhook. simpl. rewrite Hcls. simpl.
  split; reflexivity.
Qed.

Lemma credential_error_propagates_witness :
  all_space "conn1" = false /\
  exn_cls not_found = AirflowNotFoundException /\
  outcome (get_engine [("alpha", unknown_conn "Alpha")] "Alpha" "conn1" None None)
  = inl not_found.
Proof.
  split; [reflexivity|]. split; [reflexivity|].
  exact (proj1 (credential_error_propagates [("alpha", unknown_conn "Alpha")]
                  "Alpha" "conn1" None None (unknown_conn "Alpha") not_found
                  eq_refl eq_refl eq_refl eq_refl)).
Defined.

(** The same holds when the identifier is found missing only as the hook
    builds its engine, which is when Airflow's hooks look the connection up. *)
Lemma credential_error_from_engine_propagates (reg : Registry)
    (db_type conn_id : string) (ho so : option Options) (cls : StrategyCls)
    (hook : Hook) (err : Exn) :
  dict_get (lower db_type) reg = Some cls ->
  all_space conn_id = false ->
  create_hook cls conn_id (or_empty ho) = inr hook ->
  get_sqlalchemy_engine hook (or_empty so) = inl err ->
  exn_cls err = AirflowNotFoundException ->
  outcome (get_engine reg db_type conn_id ho so) = inl err.
Proof.
  intros Hreg Hid Hhook Heng Hcls.
  rewrite (get_engine_registered _ _ _ _ _ _ Hreg).
  run_factory. rewrite blank_guard, Hid, Hhook, Heng. simpl. rewrite Hcls.
  reflexivity.
Qed.

(** C9.  Omitted or [None] options are empty dictionaries: a call with either
    option [None] is the call with [{}] in its place, and the strategy is
    always handed the dictionary [or_empty] of what was passed, which is [[]]
    for [None]. *)
Theorem none_options_are_empty (reg : Registry) (db_type conn_id : string)
    (ho so : option Options) :
  get_engine reg db_type conn_id None so = get_engine reg db_type conn_id (Some []) so /\
  get_engine reg db_type conn_id ho None = get_engine reg db_type conn_id ho (Some []) /\
  get_engine reg db_type conn_id None None
  = get_engine reg db_type conn_id (Some []) (Some []) /\
  get_engine reg db_type conn_id ho so
  = get_engine reg db_type conn_id (Some (or_empty ho)) (Some (or_empty so)) /\
  or_empty None = [] /\
  (forall cls,
     dict_get (lower db_type) reg = Some cls ->
     get_engine reg db_type conn_id ho so
     = (emit (Instantiate (cls_name cls)) ;;;
        create_validated_engine cls conn_id (or_empty ho) (or_empty so))).
Proof.
  repeat split.
  - unfold get_engine. now destruct ho as [[|? ?]|], so as [[|? ?]|].
  - intros cls H. now rewrite (get_engine_registered _ _ _ _ _ _ H).
Qed.

Lemma none_options_are_empty_witness :
  get_engine [("alpha", healthy "Alpha")] "alpha" "conn1" None None
  = get_engine [("alpha", healthy "Alpha")] "alpha" "conn1" (Some []) (Some []) /\
  trace (get_engine [("alpha", healthy "Alpha")] "alpha" "conn1" None None)
  = trace (emit (Instantiate "Alpha") ;;;
           create_validated_engine (healthy "Alpha") "conn1" [] []).
Proof.
  pose proof (none_options_are_empty [("alpha", healthy "Alpha")] "alpha" "conn1"
                None None) as H.
  split; [exact (proj1 (proj2 (proj2 H)))|].
  exact (f_equal trace
           (proj2 (proj2 (proj2 (proj2 (proj2 H)))) (healthy "Alpha") eq_refl)).
Defined.

(** ** The logging set-up *)

Lemma getLogger_existing (st : Logging) (name : string) (ref : Ref) (lg : Logger) :
  existing_logger st name = Some (ref, lg) ->
  getLogger name st = ([], st, inr ref) /\ deref st ref = lg.
Proof.
  unfold existing_logger, getLogger.
  destruct (negb (str_truthy name) || String.eqb name (lname (root st))).
  - intros H. injection H as <- <-. split; reflexivity.
  - destruct (dict_get name (loggerDict st)) as [l|] eqn:E; [|discriminate].
    intros H. injection H as <- <-. simpl. rewrite E. split; reflexivity.
Qed.

Lemma deref_update (st : Logging) (ref : Ref) (f : Logger -> Logger) :
  deref (update ref f st) ref = f (deref st ref).
Proof.
  destruct ref as [|n]; simpl; [reflexivity|].
  now rewrite dict_get_set_same.
Qed.

(** C10 (as the code has it).  When the named logger already has a handler
    and the [level] argument stands for a level, [setup_logging] returns that
    logger with its handlers and its [propagate] flag as they were, whatever
    the other arguments: no handler is built, no directory or file is
    touched, no other logger changes.  The logger's level, however, is set
    to the level asked for. *)
Theorem setup_logging_keeps_handlers (env : Env) (st : Logging)
    (logger_name level_name : string) (log_file : option PathLike)
    (max_file_size backup_count : Z) (enable_console prevent_duplicates : bool)
    (ref : Ref) (lg : Logger) (z : Z) :
  existing_logger st logger_name = Some (ref, lg) ->
  has_handlers lg = true ->
  resolved_level env level_name = inr z ->
  let st' := update ref (set_level z) st in
  setup_logging env logger_name level_name log_file max_file_size backup_count
    enable_console prevent_duplicates st
  = (match logging_attr env (upper level_name) with
     | Some _ => []
     | None => [Print [Lit "Invalid log level '"; FStr level_name;
                       Lit "'. Defaulting to INFO."]]
     end, st', inr ref) /\
  handlers (deref st' ref) = handlers lg /\
  propagate (deref st' ref) = propagate lg /\
  level (deref st' ref) = z.
Proof.
  intros Hex Hh Hlv st'. subst st'.
  destruct (getLogger_existing _ _ _ _ Hex) as [Hget Hderef].
  rewrite deref_update, Hderef. simpl.
  split; [|repeat split].
  unfold setup_logging, resolved_level in *.
  destruct (logging_attr env (upper level_name)) as [v|].
  - unfold lbind at 1. unfold lret at 1. unfold lbind at 1. rewrite Hget.
    unfold setLevel, lbind, lift, modify, read. rewrite Hlv.
    rewrite deref_update, Hderef.
    unfold has_handlers in *. simpl. destruct (handlers lg); [discriminate|].
    reflexivity.
  - injection Hlv as <-.
    unfold lbind at 1. unfold lbind at 1. unfold effect at 1. unfold lret at 1.
    unfold lbind at 1. rewrite Hget.
    unfold setLevel, lbind, lift, modify, read. simpl _checkLevel. cbv iota.
    rewrite deref_update, Hderef.
    unfold has_handlers in *. simpl. destruct (handlers lg); [discriminate|].
    reflexivity.
Qed.

Lemma setup_logging_keeps_handlers_witness :
  existing_logger after_first_call "etl"
  = Some (Named "etl", deref after_first_call (Named "etl")) /\
  has_handlers (deref after_first_call (Named "etl")) = true /\
  resolved_level std_env "warning" = inr 30%Z /\
  handlers (deref (update (Named "etl") (set_level 30) after_first_call) (Named "etl"))
  = [console].
Proof.
  split; [reflexivity|]. split; [reflexivity|]. split; [reflexivity|].
  exact (proj1 (proj2 (setup_logging_keeps_handlers std_env after_first_call
                         "etl" "warning" (Some (AsStr "/var/log/etl.log")) 1024 5
                         true true (Named "etl")
                         (deref after_first_call (Named "etl")) 30
                         eq_refl eq_refl eq_refl))).
Defined.

(** C10, refuted as stated.  A second call that asks for another level
    returns the logger changed: its level was [INFO] and is now [DEBUG].  And
    a second call whose level names an attribute of the module that is no
    level does not return the logger: it raises. *)
Lemma setup_logging_changes_level :
  has_handlers (deref after_first_call (Named "etl")) = true /\
  level (deref after_first_call (Named "etl")) = 20%Z /\
  snd (setup_logging std_env "etl" "DEBUG" None 1024 5 true true after_first_call)
  = inr (Named "etl") /\
  level (deref (snd (fst (setup_logging std_env "etl" "DEBUG" None 1024 5 true true
                            after_first_call))) (Named "etl")) = 10%Z /\
  deref (snd (fst (setup_logging std_env "etl" "DEBUG" None 1024 5 true true
                     after_first_call))) (Named "etl")
  <> deref after_first_call (Named "etl") /\
  snd (setup_logging std_env "etl" "basic_format" None 1024 5 true true after_first_call)
  = inl (MkExn ValueError [Lit "Unknown level: ";
                           FStr "%(levelname)s:%(name)s:%(message)s"]).
Proof. repeat split; try reflexivity. discriminate. Qed.

(** ** The factory: every path of a call *)

Lemma dispatch_hook_error (cls : StrategyCls) (conn_id : string)
    (ho so : option Options) (err : Exn) :
  all_space conn_id = false ->
  create_hook cls conn_id (or_empty ho) = inl err ->
  dispatch cls conn_id ho so
  = ([Instantiate (cls_name cls); CreateHook (cls_name cls) conn_id (or_empty ho)]
       ++ error_log conn_id err,
     inl err).
Proof.
  intros Hid Hhook.
  run_factory. rewrite blank_guard, Hid, Hhook. unfold error_log. simpl.
  destruct (exn_cls err); reflexivity.
Qed.

Lemma dispatch_success (cls : StrategyCls) (conn_id : string)
    (ho so : option Options) (hook : Hook) (engine : Engine) (c : Connection) :
  all_space conn_id = false ->
  create_hook cls conn_id (or_empty ho) = inr hook ->
  get_sqlalchemy_engine hook (or_empty so) = inr engine ->
  connect engine = inr c ->
  execute c "SELECT 1" = None ->
  dispatch cls conn_id ho so
  = ([Instantiate (cls_name cls);
      CreateHook (cls_name cls) conn_id (or_empty ho);
      GetSqlalchemyEngine (hook_name hook) (or_empty so);
      Log INFO "Successfully created engine for connection: '%s'" [AStr conn_id];
      Connect (engine_name engine);
      Execute (conn_name c) "SELECT 1";
      Close (conn_name c);
      Log DEBUG "Connection test passed for '%s'." [AStr conn_id]],
     inr engine).
Proof.
  intros Hid Hhook Heng Hc Hx.
  run_factory. rewrite blank_guard, Hid, Hhook, Heng. simpl.
  rewrite Hc. simpl. unfold text. rewrite Hx. reflexivity.
Qed.






(** X3.  When every step succeeds the call returns the engine the hook built, and
    its trace is the eight calls below: the options reach the hook and the
    engine as given, one connection is opened for the probe and closed again
    before the engine is returned. *)
Theorem get_engine_success (reg : Registry) (db_type conn_id : string)
    (ho so : option Options) (cls : StrategyCls) (hook : Hook)
    (engine : Engine) (c : Connection) :
  dict_get (lower db_type) reg = Some cls ->
  all_space conn_id = false ->
  create_hook cls conn_id (or_empty ho) = inr hook ->
  get_sqlalchemy_engine hook (or_empty so) = inr engine ->
  connect engine = inr c ->
  execute c "SELECT 1" = None ->
  get_engine reg db_type conn_id ho so
  = ([Instantiate (cls_name cls);
      CreateHook (cls_name cls) conn_id (or_empty ho);
      GetSqlalchemyEngine (hook_name hook) (or_empty so);
      Log INFO "Successfully created engine for connection: '%s'" [AStr conn_id];
      Connect (engine_name engine);
      Execute (conn_name c) "SELECT 1";
      Close (conn_name c);
      Log DEBUG "Connection test passed for '%s'." [AStr conn_id]],
     inr engine).
Proof.
  intros Hreg Hid Hhook Heng Hc Hx.
  rewrite (get_engine_registered _ _ _ _ _ _ Hreg).
  now apply (dispatch_success cls conn_id ho so hook engine c).
Qed.

Lemma get_engine_success_witness :
  outcome (get_engine [("alpha", healthy "Alpha")] "Alpha" "conn1"
             (Some [("schema", VStr "etl")]) None)
  = inr (fake_engine (inr (fake_connection None))).
Proof.
  exact (f_equal outcome
           (get_engine_success [("alpha", healthy "Alpha")] "Alpha" "conn1"
              (Some [("schema", VStr "etl")]) None (healthy "Alpha")
              (fake_hook (inr (fake_engine (inr (fake_connection None)))))
              (fake_engine (inr (fake_connection None))) (fake_connection None)
              eq_refl eq_refl eq_refl eq_refl eq_refl eq_refl)).
Defined.

(** X4.  A call returns an engine exactly when the type is registered, the
    identifier is not blank, the hook and the engine are built and the probe
    passes; the engine returned is the one the hook built. *)
Theorem get_engine_returns_iff (reg : Registry) (db_type conn_id : string)
    (ho so : option Options) (engine : Engine) :
  outcome (get_engine reg db_type conn_id ho so) = inr engine <->
  exists cls hook,
    dict_get (lower db_type) reg = Some cls /\
    all_space conn_id = false /\
    create_hook cls conn_id (or_empty ho) = inr hook /\
    get_sqlalchemy_engine hook (or_empty so) = inr engine /\
    probe engine = None.
Proof.
  split.
  - unfold get_engine.
    destruct (dict_get (lower db_type) reg) as [cls|]; [|discriminate].
    run_factory. rewrite blank_guard.
    destruct (all_space conn_id); simpl; [discriminate|].
    destruct (create_hook cls conn_id (or_empty ho)) as [e|hook] eqn:Hh; simpl.
    { destruct (exn_cls e); discriminate. }
    destruct (get_sqlalchemy_engine hook (or_empty so)) as [e|eng] eqn:He; simpl.
    { destruct (exn_cls e); discriminate. }
    destruct (connect eng) as [e|c] eqn:Hc; simpl; [discriminate|].
    unfold text. destruct (execute c "SELECT 1") as [e|] eqn:Hx; simpl; [discriminate|].
    intros H. injection H as <-. exists cls, hook. rewrite Hc.
    repeat split; assumption.
  - intros (cls & hook & Hreg & Hid & Hhook & Heng & Hprobe).
    unfold probe in Hprobe. destruct (connect engine) as [e|c] eqn:Hc; [discriminate|].
    rewrite (get_engine_registered _ _ _ _ _ _ Hreg).
    now rewrite (dispatch_success _ _ _ _ _ _ _ Hid Hhook Heng Hc Hprobe).
Qed.

(** X5.  Every exception a call raises is one of five: the unsupported-type
    [ValueError], the blank-identifier [ValueError], what [create_hook]
    raised, what [get_sqlalchemy_engine] raised, or the [SQLAlchemyError] that
    wraps the cause of a failed probe. *)
Theorem get_engine_failures (reg : Registry) (db_type conn_id : string)
    (ho so : option Options) (err : Exn) :
  outcome (get_engine reg db_type conn_id ho so) = inl err ->
  (dict_get (lower db_type) reg = None /\
   err = unsupported_error db_type (dict_keys reg)) \/
  exists cls,
    dict_get (lower db_type) reg = Some cls /\
    ((all_space conn_id = true /\ err = conn_id_error) \/
     (all_space conn_id = false /\
      (create_hook cls conn_id (or_empty ho) = inl err \/
       exists hook,
         create_hook cls conn_id (or_empty ho) = inr hook /\
         (get_sqlalchemy_engine hook (or_empty so) = inl err \/
          exists engine cause,
            get_sqlalchemy_engine hook (or_empty so) = inr engine /\
            probe engine = Some cause /\
            err = validation_error cause)))).
Proof.
  unfold get_engine.
  destruct (dict_get (lower db_type) reg) as [cls|].
  2:{ simpl. intros H. injection H as <-. left. split; reflexivity. }
  intros H. right. exists cls. split; [reflexivity|]. revert H.
  run_factory. rewrite blank_guard.
  destruct (all_space conn_id); simpl.
  { intros H. injection H as <-. left. split; reflexivity. }
  intros H. right. split; [reflexivity|]. revert H.
  destruct (create_hook cls conn_id (or_empty ho)) as [e|hook]; simpl.
  { intros H. left. f_equal. destruct (exn_cls e); simpl in H; now injection H. }
  intros H. right. exists hook. split; [reflexivity|]. revert H.
  destruct (get_sqlalchemy_engine hook (or_empty so)) as [e|eng]; simpl.
  { intros H. left. f_equal. destruct (exn_cls e); simpl in H; now injection H. }
  intros H. right. revert H.
  destruct (connect eng) as [e|c] eqn:Hc; simpl.
  { intros H. injection H as <-. exists eng, e. rewrite Hc. repeat split. }
  unfold text. destruct (execute c "SELECT 1") as [e|] eqn:Hx; simpl; [|discriminate].
  intros H. injection H as <-. exists eng, e. rewrite Hc. repeat split. exact Hx.
Qed.

Lemma get_engine_failures_witness :
  outcome (get_engine [("alpha", broken "Alpha")] "alpha" "conn1" None None)
  = inl (validation_error refused) /\
  probe (fake_engine (inr (fake_connection (Some refused)))) = Some refused.
Proof.
  split; [reflexivity|].
  destruct (get_engine_failures [("alpha", broken "Alpha")] "alpha" "conn1"
              None None (validation_error refused) eq_refl)
    as [[H _]|(cls & _ & _)]; [discriminate H|reflexivity].
Defined.

Lemma get_engine_returns_iff_witness :
  exists cls hook,
    dict_get (lower "ALPHA") [("alpha", healthy "Alpha")] = Some cls /\
    all_space "conn1" = false /\
    create_hook cls "conn1" (or_empty None) = inr hook /\
    get_sqlalchemy_engine hook (or_empty None)
    = inr (fake_engine (inr (fake_connection None))) /\
    probe (fake_engine (inr (fake_connection None))) = None.
Proof.
  exact (proj1 (get_engine_returns_iff [("alpha", healthy "Alpha")] "ALPHA" "conn1"
                  None None (fake_engine (inr (fake_connection None)))) eq_refl).
Defined.


(** X7.  Registering a strategy under one name leaves every other registered name
    as it was: a call for another registered type is the same call before
    and after.  A type that was not registered stays unsupported, and the
    error then lists the new name too. *)
Theorem register_strategy_leaves_others (reg : Registry) (name : string)
    (strategy_cls : StrategyCls) (db_type conn_id : string) (ho so : option Options) :
  lower name <> lower db_type ->
  get_engine (register_strategy name strategy_cls reg) db_type conn_id ho so
  = match dict_get (lower db_type) reg with
    | Some _ => get_engine reg db_type conn_id ho so
    | None =>
        ([], inl (unsupported_error db_type (add_key (dict_keys reg) (lower name))))
    end.
Proof.
  intros Hne. unfold get_engine, register_strategy.
  rewrite (dict_get_set_other _ _ _ _ Hne).
  destruct (dict_get (lower db_type) reg); [reflexivity|].
  now rewrite dict_keys_set.
Qed.

Lemma register_strategy_leaves_others_witness :
  lower "Oracle" <> lower "POSTGRES" /\
  get_engine (register_strategy "Oracle" (healthy "Oracle")
                [("postgres", broken "Postgres")]) "POSTGRES" "conn1" None None
  = get_engine [("postgres", broken "Postgres")] "POSTGRES" "conn1" None None.
Proof.
  assert (H : lower "Oracle" <> lower "POSTGRES") by discriminate.
  split; [exact H|].
  exact (register_strategy_leaves_others [("postgres", broken "Postgres")] "Oracle"
           (healthy "Oracle") "POSTGRES" "conn1" None None H).
Defined.

(** X8.  Once the module is imported exactly two types are supported, in any
    spelling: [postgres] runs [PostgresStrategy], [mssql] runs
    [MsSqlStrategy], and every other name is refused with both names listed. *)
Theorem module_registry_dispatch (PostgresHook MsSqlHook : Options -> Exn + Hook)
    (db_type conn_id : string) (ho so : option Options) :
  get_engine (module_registry PostgresHook MsSqlHook) db_type conn_id ho so
  = if String.eqb (lower db_type) "postgres" then
      dispatch (PostgresStrategy PostgresHook) conn_id ho so
    else if String.eqb (lower db_type) "mssql" then
      dispatch (MsSqlStrategy MsSqlHook) conn_id ho so
    else ([], inl (unsupported_error db_type ["postgres"; "mssql"])).
Proof.
  change (module_registry PostgresHook MsSqlHook)
    with [("postgres", PostgresStrategy PostgresHook); ("mssql", MsSqlStrategy MsSqlHook)].
  unfold get_engine, dispatch. cbn [dict_get dict_keys map fst].
  rewrite (String.eqb_sym "postgres"), (String.eqb_sym "mssql").
  destruct (String.eqb (lower db_type) "postgres"); [reflexivity|].
  destruct (String.eqb (lower db_type) "mssql"); reflexivity.
Qed.

(** X9.  The two strategies hand the connection identifier to their hook under
    the hook's own keyword, before the hook options.  Hook options that carry
    that keyword themselves make the call fail with [TypeError]: the hook's
    constructor is not entered, nothing is logged, and the exception is what
    [get_engine] raises. *)
Theorem conn_id_keyword_clash (PostgresHook MsSqlHook : Options -> Exn + Hook)
    (conn_id : string) (ho so : option Options) :
  all_space conn_id = false ->
  (dict_mem "postgres_conn_id" (or_empty ho) = false ->
   create_hook (PostgresStrategy PostgresHook) conn_id (or_empty ho)
   = PostgresHook (("postgres_conn_id", VStr conn_id) :: or_empty ho)) /\
  (dict_mem "mssql_conn_id" (or_empty ho) = false ->
   create_hook (MsSqlStrategy MsSqlHook) conn_id (or_empty ho)
   = MsSqlHook (("mssql_conn_id", VStr conn_id) :: or_empty ho)) /\
  (dict_mem "postgres_conn_id" (or_empty ho) = true ->
   exists err,
     exn_cls err = OtherException "TypeError" /\
     get_engine (module_registry PostgresHook MsSqlHook) "postgres" conn_id ho so
     = ([Instantiate "PostgresStrategy";
         CreateHook "PostgresStrategy" conn_id (or_empty ho)], inl err)) /\
  (dict_mem "mssql_conn_id" (or_empty ho) = true ->
   exists err,
     exn_cls err = OtherException "TypeError" /\
     get_engine (module_registry PostgresHook MsSqlHook) "mssql" conn_id ho so
     = ([Instantiate "MsSqlStrategy";
         CreateHook "MsSqlStrategy" conn_id (or_empty ho)], inl err)).
Proof.
  intros Hid. repeat split.
  - intros H. simpl. unfold call_kwargs. now rewrite H.
  - intros H. simpl. unfold call_kwargs. now rewrite H.
  - intros H.
    exists (MkExn (OtherException "TypeError")
              [Lit "got multiple values for keyword argument "; FStr "postgres_conn_id"]).
    split; [reflexivity|].
    rewrite (get_engine_registered (module_registry PostgresHook MsSqlHook)
               "postgres" conn_id ho so (PostgresStrategy PostgresHook) eq_refl).
    assert (Hh : create_hook (PostgresStrategy PostgresHook) conn_id (or_empty ho)
                 = inl (MkExn (OtherException "TypeError")
                          [Lit "got multiple values for keyword argument ";
                           FStr "postgres_conn_id"])).
    { simpl. unfold call_kwargs. now rewrite H. }
    rewrite (dispatch_hook_error _ _ _ so _ Hid Hh). reflexivity.
  - intros H.
    exists (MkExn (OtherException "TypeError")
              [Lit "got multiple values for keyword argument "; FStr "mssql_conn_id"]).
    split; [reflexivity|].
    rewrite (get_engine_registered (module_registry PostgresHook MsSqlHook)
               "mssql" conn_id ho so (MsSqlStrategy MsSqlHook) eq_refl).
    assert (Hh : create_hook (MsSqlStrategy MsSqlHook) conn_id (or_empty ho)
                 = inl (MkExn (OtherException "TypeError")
                          [Lit "got multiple values for keyword argument ";
                           FStr "mssql_conn_id"])).
    { simpl. unfold call_kwargs. now rewrite H. }
    rewrite (dispatch_hook_error _ _ _ so _ Hid Hh). reflexivity.
Qed.

(** ** The logging set-up: a first call *)

Lemma getLogger_ensure (st : Logging) (name : string) :
  getLogger name st = ([], ensure st name, inr (ref_of st name)).
Proof.
  unfold getLogger, ensure, ref_of.
  destruct (negb (str_truthy name) || String.eqb name (lname (root st)));
    [reflexivity|].
  now destruct (dict_get name (loggerDict st)).
Qed.

Lemma update_update (st : Logging) (ref : Ref) (f g : Logger -> Logger) :
  update ref f (update ref g st) = update ref (fun l => f (g l)) st.
Proof.
  destruct ref as [|n]; simpl; [reflexivity|].
  now rewrite dict_get_set_same, dict_set_set.
Qed.

Lemma update_ext (st : Logging) (ref : Ref) (f g : Logger -> Logger) :
  f (deref st ref) = g (deref st ref) -> update ref f st = update ref g st.
Proof. intros H. destruct ref as [|n]; simpl in *; now rewrite H. Qed.

Lemma dict_set_get {V} (k : string) (v : V) (d : Dict V) :
  dict_get k d = Some v -> dict_set k v d = d.
Proof.
  induction d as [|[k' v'] d IH]; simpl; [discriminate|].
  destruct (String.eqb k' k).
  - intros H. now injection H as ->.
  - intros H. now rewrite IH.
Qed.

(** An update that leaves the logger as it is leaves the state as it is,
    once the logger exists. *)
Lemma update_same (st : Logging) (name : string) (f : Logger -> Logger) :
  f (the_logger st name) = the_logger st name ->
  update (ref_of st name) f (ensure st name) = ensure st name.
Proof.
  unfold the_logger, ensure. destruct (ref_of st name) as [|n]; simpl.
  - intros ->. now destruct st.
  - destruct (dict_get n (loggerDict st)) as [l|] eqn:E; simpl.
    + rewrite E. intros ->. rewrite (dict_set_get _ _ _ E). now destruct st.
    + rewrite dict_get_set_same. intros ->. now rewrite dict_set_set.
Qed.

Lemma ref_of_update (st : Logging) (name : string) (ref : Ref) (f : Logger -> Logger) :
  (forall l, lname (f l) = lname l) ->
  ref_of (update ref f st) name = ref_of st name.
Proof.
  intros Hf. unfold ref_of. destruct ref; simpl; [|reflexivity]. now rewrite Hf.
Qed.

Lemma ref_of_ensure (st : Logging) (name : string) :
  ref_of (ensure st name) name = ref_of st name.
Proof.
  unfold ensure. destruct (ref_of st name) eqn:E; [exact E|].
  destruct (dict_get name0 (loggerDict st)); exact E.
Qed.

Lemma ref_of_named (st : Logging) (name n : string) :
  ref_of st name = Named n -> n = name.
Proof.
  unfold ref_of. destruct (negb _ || _); [discriminate|]. intros H. now injection H.
Qed.

Lemma ensure_ensure (st : Logging) (name : string) :
  ensure (ensure st name) name = ensure st name.
Proof.
  unfold ensure at 1. rewrite ref_of_ensure.
  destruct (ref_of st name) as [|n] eqn:E; [reflexivity|].
  unfold ensure. rewrite E.
  destruct (dict_get n (loggerDict st)) eqn:G; simpl.
  - now rewrite G.
  - now rewrite dict_get_set_same.
Qed.

Lemma lbind_lret {A B} (a : A) (k : A -> L B) (st : Logging) :
  lbind (lret a) k st = k a st.
Proof. unfold lbind, lret. now destruct (k a st) as [[o s] r]. Qed.

Lemma lbind_effect_lret {A B} (ev : Effect) (a : A) (k : A -> L B) (st : Logging) :
  lbind (lbind (effect ev) (fun _ => lret a)) k st
  = match k a st with (o, st', r) => (ev :: o, st', r) end.
Proof. unfold lbind, lret, effect. now destruct (k a st) as [[o s] r]. Qed.

(** What a call does, in one step: it raises when the level is none; it
    sets the level of a logger that has handlers; and it configures a logger
    that has none, up to the point where the file handler fails. *)
Lemma setup_logging_run (env : Env) (st : Logging) (logger_name level_name : string)
    (log_file : option PathLike) (max_file_size backup_count : Z)
    (enable_console prevent_duplicates : bool) :
  let ref := ref_of st logger_name in
  let st1 := ensure st logger_name in
  setup_logging env logger_name level_name log_file max_file_size backup_count
    enable_console prevent_duplicates st
  = match resolved_level env level_name with
    | inl e => (level_prints env level_name, st1, inl e)
    | inr z =>
        if has_handlers (the_logger st logger_name) then
          (level_prints env level_name, update ref (set_level z) st1, inr ref)
        else
          (level_prints env level_name ++ fst (file_steps env log_file),
           update ref
             (fun l =>
                {| lname := lname l; level := z;
                   handlers :=
                     handlers l
                     ++ (if enable_console then [console_at z] else [])
                     ++ (match snd (file_steps env log_file) with
                         | None =>
                             if path_truthy log_file
                             then [file_at (file_of log_file) max_file_size
                                           backup_count z]
                             else []
                         | Some _ => []
                         end);
                   propagate := if prevent_duplicates then false else propagate l |})
             st1,
           match snd (file_steps env log_file) with
           | Some e => inl e
           | None => inr ref
           end)
    end.
Proof.
  intros ref st1. subst ref st1.
  unfold setup_logging, resolved_level, level_prints, the_logger.
  set (ref := ref_of st logger_name). set (st1 := ensure st logger_name).
  assert (Hcore : forall v : PyObj,
    (logger <~ getLogger logger_name ;;
     setLevel env logger v ;;>
     populated <~ read (fun st => has_handlers (deref st logger)) ;;
     if populated then lret logger
     else
       when prevent_duplicates (modify (update logger (set_propagate false))) ;;>
       let formatter :=
         MkFormatter "%(asctime)s - %(name)s - %(levelname)s - %(message)s"
                     "%Y-%m-%d %H:%M:%S" in
       when enable_console
         (console_handler <~ configured env (StreamHandler "sys.stdout") v formatter ;;
          modify (update logger (add_handler console_handler))) ;;>
       when (path_truthy log_file)
         (let file := match log_file with
                      | Some p => path_str p | None => EmptyString end in
          let log_dir := parent env (_normalize env file) in
          create_directory env log_dir ;;>
          effect (OpenAppend file) ;;>
          lift (of_option (open_append env file)) ;;>
          file_handler <~ configured env
                            (RotatingFileHandler file max_file_size backup_count)
                            v formatter ;;
          modify (update logger (add_handler file_handler))) ;;>
       lret logger) st
    = match _checkLevel env v with
      | inl e => ([], st1, inl e)
      | inr z =>
          if has_handlers (deref st1 ref) then
            ([], update ref (set_level z) st1, inr ref)
          else
            (fst (file_steps env log_file),
             update ref
               (fun l =>
                  {| lname := lname l; level := z;
                     handlers :=
                       handlers l
                       ++ (if enable_console then [console_at z] else [])
                       ++ (match snd (file_steps env log_file) with
                           | None =>
                               if path_truthy log_file
                               then [file_at (file_of log_file) max_file_size
                                             backup_count z]
                               else []
                           | Some _ => []
                           end);
                     propagate := if prevent_duplicates then false else propagate l |})
               st1,
             match snd (file_steps env log_file) with
             | Some e => inl e
             | None => inr ref
             end)
      end).
  { intros v. unfold lbind at 1. rewrite getLogger_ensure. fold ref st1.
    unfold setLevel. unfold lbind at 1. unfold lbind at 1. unfold lift at 1.
    destruct (_checkLevel env v) as [e|z] eqn:Hv; [reflexivity|].
    unfold modify at 1. unfold lbind at 1. unfold read at 1. cbv beta.
    rewrite deref_update.
    change (has_handlers (set_level z (deref st1 ref)))
      with (has_handlers (deref st1 ref)).
    destruct (has_handlers (deref st1 ref)) eqn:Hh; [reflexivity|].
    unfold has_handlers in Hh. destruct (handlers (deref st1 ref)) eqn:Hnil;
      [clear Hh|discriminate].
    unfold file_steps, log_dir_of, file_of, create_directory, configured, when,
      lbind, lift, modify, effect, lret, of_option, console_at, file_at, log_formatter.
    rewrite Hv.
    set (file := match log_file with Some p => path_str p | None => EmptyString end).
    set (dir := _normalize env (parent env (_normalize env file))).
    destruct prevent_duplicates, enable_console, (path_truthy log_file); simpl;
      try (destruct (path_exists env dir); simpl);
      try (destruct (mkdir env dir); simpl);
      try (destruct (open_append env file); simpl);
      (apply f_equal2; [apply f_equal2; [reflexivity|]|reflexivity]);
      repeat rewrite update_update; apply update_ext;
      unfold set_propagate, add_handler, set_level; simpl; rewrite ?Hnil;
      reflexivity. }
  cbv zeta in Hcore.
  destruct (logging_attr env (upper level_name)) as [v|].
  - rewrite lbind_lret. cbv beta. rewrite (Hcore v).
    destruct (_checkLevel env v); [reflexivity|].
    now destruct (has_handlers (deref st1 ref)).
  - rewrite lbind_effect_lret. cbv beta. rewrite (Hcore (PInt INFO_code)).
    simpl _checkLevel. cbv iota.
    now destruct (has_handlers (deref st1 ref)).
Qed.



Lemma ensure_update (st : Logging) (name : string) (f : Logger -> Logger) :
  (forall l, lname (f l) = lname l) ->
  ensure (update (ref_of st name) f (ensure st name)) name
  = update (ref_of st name) f (ensure st name).
Proof.
  intros Hf. unfold ensure at 1.
  rewrite (ref_of_update _ _ _ _ Hf), ref_of_ensure.
  destruct (ref_of st name) as [|n] eqn:E; [reflexivity|].
  simpl. now rewrite dict_get_set_same.
Qed.

(** A state in which the named logger has handlers and the level asked for
    is a fixed point of the call, whatever the other arguments. *)
Lemma setup_logging_settled (env : Env) (st : Logging) (logger_name level_name : string)
    (f : Logger -> Logger) (z : Z) (log_file : option PathLike)
    (max_file_size backup_count : Z) (enable_console prevent_duplicates : bool) :
  (forall l, lname (f l) = lname l) ->
  resolved_level env level_name = inr z ->
  has_handlers (f (the_logger st logger_name)) = true ->
  level (f (the_logger st logger_name)) = z ->
  let s := update (ref_of st logger_name) f (ensure st logger_name) in
  setup_logging env logger_name level_name log_file max_file_size backup_count
    enable_console prevent_duplicates s
  = (level_prints env level_name, s, inr (ref_of st logger_name)).
Proof.
  intros Hf Hlv Hh Hz s.
  assert (Hr : ref_of s logger_name = ref_of st logger_name).
  { unfold s. now rewrite (ref_of_update _ _ _ _ Hf), ref_of_ensure. }
  assert (He : ensure s logger_name = s) by (unfold s; now apply ensure_update).
  assert (Hl : the_logger s logger_name = f (the_logger st logger_name)).
  { unfold the_logger. rewrite He, Hr. unfold s. now rewrite deref_update. }
  rewrite setup_logging_run, Hlv, Hl, Hh.
  rewrite (update_same s logger_name (set_level z)).
  - now rewrite He, Hr.
  - rewrite Hl.
    destruct (f (the_logger st logger_name)) as [n lv hs p]. simpl in Hz. subst z.
    reflexivity.
Qed.

(** X12.  The first call on a logger without handlers, when the file handler can
    be set up or none is asked for.  The call returns the logger with the
    level asked for, with exactly the handlers asked for in the order console,
    file, and with [propagate] off if [prevent_duplicates] is set and as it
    was if not.  The directory of the log file is made only when it is
    missing, and before the file is opened. *)
Theorem setup_logging_fresh (env : Env) (st : Logging) (logger_name level_name : string)
    (log_file : option PathLike) (max_file_size backup_count : Z)
    (enable_console prevent_duplicates : bool) (z : Z) :
  has_handlers (the_logger st logger_name) = false ->
  resolved_level env level_name = inr z ->
  (path_truthy log_file = true ->
   (path_exists env (log_dir_of env (file_of log_file)) = true \/
    mkdir env (log_dir_of env (file_of log_file)) = None) /\
   open_append env (file_of log_file) = None) ->
  exists st',
    setup_logging env logger_name level_name log_file max_file_size backup_count
      enable_console prevent_duplicates st
    = (level_prints env level_name
       ++ (if path_truthy log_file then
             (if path_exists env (log_dir_of env (file_of log_file)) then []
              else [Mkdir (log_dir_of env (file_of log_file))])
             ++ [OpenAppend (file_of log_file)]
           else []),
       st', inr (ref_of st logger_name)) /\
    deref st' (ref_of st logger_name)
    = {| lname := lname (the_logger st logger_name);
         level := z;
         handlers := wanted_handlers z log_file max_file_size backup_count
                       enable_console;
         propagate := if prevent_duplicates then false
                      else propagate (the_logger st logger_name) |}.
Proof.
  intros Hh Hlv Hfs. rewrite setup_logging_run, Hlv, Hh.
  assert (Hnil : handlers (the_logger st logger_name) = []).
  { unfold has_handlers in Hh. now destruct (handlers (the_logger st logger_name)). }
  assert (Hsteps : file_steps env log_file
                   = ((if path_truthy log_file then
                         (if path_exists env (log_dir_of env (file_of log_file)) then []
                          else [Mkdir (log_dir_of env (file_of log_file))])
                         ++ [OpenAppend (file_of log_file)]
                       else []), None)).
  { unfold file_steps. destruct (path_truthy log_file); [|reflexivity].
    destruct (Hfs eq_refl) as [Hdir Hopen]. rewrite Hopen.
    destruct (path_exists env (log_dir_of env (file_of log_file))); [reflexivity|].
    destruct Hdir as [Hdir|Hdir]; [discriminate|]. now rewrite Hdir. }
  rewrite Hsteps. simpl fst. simpl snd. eexists. split; [reflexivity|].
  rewrite deref_update. fold (the_logger st logger_name). rewrite Hnil.
  reflexivity.
Qed.

Lemma setup_logging_fresh_witness :
  has_handlers (the_logger after_first_call "etl.load") = false /\
  resolved_level std_env "debug" = inr 10%Z /\
  exists st',
    setup_logging std_env "etl.load" "debug" (Some (AsStr "/var/log/etl.log")) 1024 5
      true true after_first_call
    = ([OpenAppend "/var/log/etl.log"], st', inr (Named "etl.load")) /\
    handlers (deref st' (Named "etl.load"))
    = [console_at 10; file_at "/var/log/etl.log" 1024 5 10].
Proof.
  split; [reflexivity|]. split; [reflexivity|].
  destruct (setup_logging_fresh std_env after_first_call "etl.load" "debug"
              (Some (AsStr "/var/log/etl.log")) 1024 5 true true 10
              eq_refl eq_refl (fun _ => conj (or_introl eq_refl) eq_refl))
    as (st' & Hrun & Hlg).
  exists st'. split; [exact Hrun|]. exact (f_equal handlers Hlg).
Defined.

(** X13.  When the file handler cannot be set up (the directory cannot be made or
    the file cannot be opened) the call raises that exception, yet the
    logger keeps what was done before: the level, the [propagate] flag, and
    the console handler if one was asked for, and no file handler.  If a
    console handler was installed, a later call for the same logger and level,
    even with a file system that works, finds the logger populated and returns
    it as it is: the file handler is never added. *)
Theorem setup_logging_file_failure (env : Env) (st : Logging)
    (logger_name level_name : string) (log_file : option PathLike)
    (max_file_size backup_count : Z) (enable_console prevent_duplicates : bool)
    (z : Z) (err : Exn) :
  has_handlers (the_logger st logger_name) = false ->
  resolved_level env level_name = inr z ->
  snd (file_steps env log_file) = Some err ->
  exists st',
    setup_logging env logger_name level_name log_file max_file_size backup_count
      enable_console prevent_duplicates st
    = (level_prints env level_name ++ fst (file_steps env log_file), st', inl err) /\
    deref st' (ref_of st logger_name)
    = {| lname := lname (the_logger st logger_name);
         level := z;
         handlers := if enable_console then [console_at z] else [];
         propagate := if prevent_duplicates then false
                      else propagate (the_logger st logger_name) |} /\
    (enable_console = true ->
     forall env' log_file' max_file_size' backup_count' enable_console'
            prevent_duplicates',
       resolved_level env' level_name = inr z ->
       setup_logging env' logger_name level_name log_file' max_file_size'
         backup_count' enable_console' prevent_duplicates' st'
       = (level_prints env' level_name, st', inr (ref_of st logger_name))).
Proof.
  intros Hh Hlv Hfail. rewrite setup_logging_run, Hlv, Hh, Hfail.
  assert (Hnil : handlers (the_logger st logger_name) = []).
  { unfold has_handlers in Hh. now destruct (handlers (the_logger st logger_name)). }
  eexists. split; [reflexivity|]. split.
  - rewrite deref_update. fold (the_logger st logger_name). rewrite Hnil.
    now rewrite app_nil_r.
  - intros Hec env' lf' mfs' bc' ec' pd' Hlv'. subst enable_console.
    apply (setup_logging_settled env' st logger_name level_name _ z);
      [reflexivity|exact Hlv'| |reflexivity].
    unfold has_handlers. simpl. rewrite Hnil. reflexivity.
Qed.

Lemma setup_logging_file_failure_witness :
  let env := {| logging_attr := logging_attr std_env;
                nameToLevel := nameToLevel std_env;
                resolve := fun p => p;
                parent := fun _ => "/var/log";
                path_exists := fun _ => true;
                mkdir := fun _ => None;
                open_append := fun _ =>
                  Some (MkExn (OtherException "PermissionError")
                          [Lit "Permission denied"]) |} in
  exists st',
    snd (setup_logging env "etl.load" "INFO" (Some (AsPath "/var/log/etl.log"))
           1024 5 true true after_first_call)
    = inl (MkExn (OtherException "PermissionError") [Lit "Permission denied"]) /\
    snd (fst (setup_logging env "etl.load" "INFO" (Some (AsPath "/var/log/etl.log"))
                1024 5 true true after_first_call)) = st' /\
    handlers (deref st' (Named "etl.load")) = [console_at 20] /\
    setup_logging std_env "etl.load" "INFO" (Some (AsPath "/var/log/etl.log"))
      1024 5 true true st'
    = ([], st', inr (Named "etl.load")).
Proof.
  intros env.
  destruct (setup_logging_file_failure env after_first_call "etl.load" "INFO"
              (Some (AsPath "/var/log/etl.log")) 1024 5 true true 20
              (MkExn (OtherException "PermissionError") [Lit "Permission denied"])
              eq_refl eq_refl eq_refl)
    as (st' & Hrun & Hlg & Hretry).
  exists st'. split; [now rewrite Hrun|]. split; [now rewrite Hrun|].
  split; [exact (f_equal handlers Hlg)|].
  exact (Hretry eq_refl std_env (Some (AsPath "/var/log/etl.log")) 1024%Z 5%Z
           true true eq_refl).
Defined.

(** X14.  Idempotence.  After a call that returned and left the logger with a
    handler, any further call for the same logger and level, whatever its
    other arguments, returns the same logger, changes nothing in the logging
    state, and touches no file. *)
Theorem setup_logging_idempotent (env : Env) (st st1 : Logging)
    (logger_name level_name : string) (log_file : option PathLike)
    (max_file_size backup_count : Z) (enable_console prevent_duplicates : bool)
    (out : list Effect) (ref : Ref) :
  setup_logging env logger_name level_name log_file max_file_size backup_count
    enable_console prevent_duplicates st = (out, st1, inr ref) ->
  has_handlers (deref st1 ref) = true ->
  forall log_file' max_file_size' backup_count' enable_console' prevent_duplicates',
    setup_logging env logger_name level_name log_file' max_file_size' backup_count'
      enable_console' prevent_duplicates' st1
    = (level_prints env level_name, st1, inr ref).
Proof.
  rewrite setup_logging_run.
  destruct (resolved_level env level_name) as [e|z] eqn:Hlv; [discriminate|].
  destruct (has_handlers (the_logger st logger_name)) eqn:Hh.
  - intros H. injection H as _ <- <-. intros _ lf' mfs' bc' ec' pd'.
    now apply (setup_logging_settled env st logger_name level_name (set_level z) z).
  - destruct (snd (file_steps env log_file)) as [e|] eqn:Hfs; [discriminate|].
    intros H. injection H as _ <- <-.
    rewrite deref_update. fold (the_logger st logger_name).
    intros Hh1 lf' mfs' bc' ec' pd'.
    now apply (setup_logging_settled env st logger_name level_name _ z).
Qed.

Lemma setup_logging_idempotent_witness :
  exists st1,
    setup_logging std_env "etl.load" "warning" None 1024 5 true true after_first_call
    = ([], st1, inr (Named "etl.load")) /\
    has_handlers (deref st1 (Named "etl.load")) = true /\
    setup_logging std_env "etl.load" "warning" (Some (AsStr "/var/log/etl.log"))
      2048 9 false false st1
    = ([], st1, inr (Named "etl.load")).
Proof.
  eexists. split; [reflexivity|]. split; [reflexivity|].
  exact (setup_logging_idempotent std_env after_first_call _ "etl.load" "warning"
           None 1024 5 true true [] (Named "etl.load") eq_refl eq_refl
           (Some (AsStr "/var/log/etl.log")) 2048%Z 9%Z false false).
Defined.



(** ** The file system helper *)

Ltac run_fs :=
  unfold FileSystem.move, FileSystem.remove, FileSystem.find, FileSystem.fbind,
    FileSystem.ftry, FileSystem.fcall, FileSystem.fret, FileSystem.fraise,
    of_option, _normalize.



(** X18.  Whenever [remove] returns, it returns whether the path existed: [False]
    for a missing path, and then nothing was called, [True] otherwise. *)
Theorem remove_reports_existence (fs : FileSystem.Ops) (target : string) (b : bool) :
  snd (FileSystem.remove fs target) = inr b ->
  b = path_exists (FileSystem.base fs) (resolve (FileSystem.base fs) target) /\
  (b = false -> fst (FileSystem.remove fs target) = []).
Proof.
  run_fs.
  destruct (path_exists (FileSystem.base fs) (resolve (FileSystem.base fs) target));
    simpl.
  - destruct (FileSystem.is_file_at fs _); simpl.
    + destruct (FileSystem.unlink fs _); simpl; [discriminate|].
      intros H. injection H as <-. split; [reflexivity|discriminate].
    + destruct (FileSystem.is_dir_at fs _); simpl.
      * destruct (FileSystem.rmdir fs _) as [e|]; simpl.
        -- destruct (FileSystem.is_OSError e); simpl; [|discriminate].
           destruct (FileSystem.rmtree fs _); simpl; [discriminate|].
           intros H. injection H as <-. split; [reflexivity|discriminate].
        -- intros H. injection H as <-. split; [reflexivity|discriminate].
      * intros H. injection H as <-. split; [reflexivity|discriminate].
  - intros H. injection H as <-. split; reflexivity.
Qed.

Lemma remove_reports_existence_witness :
  snd (FileSystem.remove (fake_fs [] [] []) "/data/ghost.txt") = inr false /\
  fst (FileSystem.remove (fake_fs [] [] []) "/data/ghost.txt") = [].
Proof.
  split; [reflexivity|].
  exact (proj2 (remove_reports_existence (fake_fs [] [] []) "/data/ghost.txt" false
                  eq_refl) eq_refl).
Defined.

(** X19.  What [remove] calls.  A file is unlinked and nothing else.  A directory
    is removed with [rmdir]; only when that raises an [OSError] is the tree
    removed with [rmtree], and the [OSError] is then dropped: the call returns
    [True] if [rmtree] succeeds and raises what [rmtree] raises if not.  A
    path that exists but is neither file nor directory is left alone. *)
Theorem remove_calls (fs : FileSystem.Ops) (target : string) :
  let env := FileSystem.base fs in
  let path := resolve env target in
  let run := FileSystem.remove fs target in
  path_exists env path = true ->
  (FileSystem.is_file_at fs path = true ->
   fst run = [FileSystem.PathUnlink path]) /\
  (FileSystem.is_file_at fs path = false ->
   FileSystem.is_dir_at fs path = true ->
   match FileSystem.rmdir fs path with
   | None => run = ([FileSystem.PathRmdir path], inr true)
   | Some e =>
       if FileSystem.is_OSError e then
         run = ([FileSystem.PathRmdir path; FileSystem.Rmtree path],
                match FileSystem.rmtree fs path with
                | None => inr true
                | Some e' => inl e'
                end)
       else run = ([FileSystem.PathRmdir path], inl e)
   end) /\
  (FileSystem.is_file_at fs path = false ->
   FileSystem.is_dir_at fs path = false ->
   run = ([], inr true)).
Proof.
  intros env path run Hex. subst run. run_fs. fold env. fold path. rewrite Hex. simpl.
  repeat split.
  - intros ->. now destruct (FileSystem.unlink fs path).
  - intros -> ->. destruct (FileSystem.rmdir fs path) as [e|]; simpl; [|reflexivity].
    destruct (FileSystem.is_OSError e); simpl; [|reflexivity].
    now destruct (FileSystem.rmtree fs path).
  - now intros -> ->.
Qed.

Lemma remove_calls_witness :
  FileSystem.remove (fake_fs [] ["/data/trash_folder"] ["/data/trash_folder"])
    "/data/trash_folder"
  = ([FileSystem.PathRmdir "/data/trash_folder"; FileSystem.Rmtree "/data/trash_folder"],
     inr true).
Proof.
  exact (proj1 (proj2 (remove_calls
                         (fake_fs [] ["/data/trash_folder"] ["/data/trash_folder"])
                         "/data/trash_folder" eq_refl)) eq_refl eq_refl).
Defined.

(** X20.  [find] lists only what is an existing directory: for a root that is
    missing or is no directory it returns the empty list and calls nothing,
    it does not raise. *)
Theorem find_needs_directory (fs : FileSystem.Ops) (root_directory file_pattern : string) :
  let env := FileSystem.base fs in
  let root := resolve env root_directory in
  let run := FileSystem.find fs root_directory file_pattern in
  (path_exists env root = false \/ FileSystem.is_dir_at fs root = false ->
   run = ([], inr [])) /\
  (forall c, In c (fst run) ->
     c = FileSystem.PathGlob root file_pattern /\
     path_exists env root = true /\ FileSystem.is_dir_at fs root = true /\
     snd run = FileSystem.glob fs root file_pattern).
Proof.
  intros env root run. subst run. run_fs. fold env. fold root.
  destruct (path_exists env root), (FileSystem.is_dir_at fs root); simpl.
  - split; [intros [H|H]; discriminate H|].
    intros c [<-|[]]. repeat split.
  - split; [reflexivity|intros c []].
  - split; [reflexivity|intros c []].
  - split; [reflexivity|intros c []].
Qed.

Lemma find_needs_directory_witness :
  FileSystem.find (fake_fs ["/data/a.csv"] [] []) "/data/a.csv" "*.csv" = ([], inr []).
Proof.
  exact (proj1 (find_needs_directory (fake_fs ["/data/a.csv"] [] []) "/data/a.csv"
                  "*.csv") (or_intror eq_refl)).
Defined.

(** ** The enumerations *)

(** X21.  The five environments have five distinct values: looking a member up by
    its value gives that member back, a value looked up is the value of the
    member found, any other string is refused, and every name stands for a
    member of that very name. *)
Theorem Environment_values_round_trip :
  List.length (Enum.members Environment) = 5 /\
  (forall m, In m (Enum.members Environment) ->
     Enum.call Environment (Enum.value m) = inr m /\
     Enum.attr Environment (Enum.name m) = Some m) /\
  (forall v m, Enum.call Environment v = inr m ->
     Enum.value m = v /\ In m (Enum.members Environment)) /\
  (forall v, ~ In v ["local"; "development"; "uat"; "preproduction"; "production"] ->
     exists e, Enum.call Environment v = inl e /\ exn_cls e = ValueError).
Proof.
  split; [reflexivity|]. split; [|split].
  - intros m Hin. simpl in Hin.
    repeat (destruct Hin as [<-|Hin]; [split; reflexivity|]). destruct Hin.
  - intros v m. unfold Enum.call.
    destruct (Enum.by_value (Enum.members Environment) v) as [m'|] eqn:E;
      [|discriminate].
    intros H. injection H as <-. unfold Enum.by_value in E.
    apply find_some in E. destruct E as [Hin Hv].
    apply String.eqb_eq in Hv. split; assumption.
  - intros v Hv. unfold Enum.call.
    destruct (Enum.by_value (Enum.members Environment) v) as [m|] eqn:E.
    + exfalso. apply Hv. unfold Enum.by_value in E. apply find_some in E.
      destruct E as [Hin Heq]. apply String.eqb_eq in Heq. subst v. simpl in Hin.
      repeat (destruct Hin as [<-|Hin]; [simpl; tauto|]). destruct Hin.
    + eexists. split; reflexivity.
Qed.

(** X22.  The two audit fields share one value, so the class has a single member:
    [UPDATED_BY_SYSTEM] is an alias of [CREATED_BY_SYSTEM].  Both names are
    in [__members__] and stand for the same member, whose name is
    [CREATED_BY_SYSTEM], and that is the member the value looks up. *)
Theorem AuditField_alias :
  List.length (Enum.member_map AuditField) = 2 /\
  List.length (Enum.members AuditField) = 1 /\
  Enum.attr AuditField "UPDATED_BY_SYSTEM" = Enum.attr AuditField "CREATED_BY_SYSTEM" /\
  (forall n m, Enum.attr AuditField n = Some m ->
     Enum.name m = "CREATED_BY_SYSTEM" /\ Enum.value m = "system") /\
  Enum.call AuditField "system"
  = inr {| Enum.name := "CREATED_BY_SYSTEM"; Enum.value := "system" |}.
Proof.
  split; [reflexivity|]. split; [reflexivity|]. split; [reflexivity|].
  split; [|reflexivity].
  intros n m. unfold Enum.attr.
  change (Enum.member_map AuditField)
    with [("CREATED_BY_SYSTEM",
           {| Enum.name := "CREATED_BY_SYSTEM"; Enum.value := "system" |});
          ("UPDATED_BY_SYSTEM",
           {| Enum.name := "CREATED_BY_SYSTEM"; Enum.value := "system" |})].
  cbn [dict_get].
  destruct (String.eqb "CREATED_BY_SYSTEM" n);
    [intros H; injection H as <-; split; reflexivity|].
  destruct (String.eqb "UPDATED_BY_SYSTEM" n);
    [intros H; injection H as <-; split; reflexivity|discriminate].
Qed.

(** ** The registry after any sequence of registrations *)

Lemma lower_char_idem (c : ascii) : lower_char (lower_char c) = lower_char c.
Proof. destruct c as [[] [] [] [] [] [] [] []]; reflexivity. Qed.

Lemma lower_idem (s : string) : lower (lower s) = lower s.
Proof.
  induction s as [|c t IH]; simpl; [reflexivity|].
  now rewrite lower_char_idem, IH.
Qed.

Lemma dict_get_set {V} (k j : string) (v : V) (d : Dict V) :
  dict_get j (dict_set k v d) = if String.eqb k j then Some v else dict_get j d.
Proof.
  destruct (String.eqb_spec k j) as [->|Hne].
  - apply dict_get_set_same.
  - now apply dict_get_set_other.
Qed.

Lemma in_add_key (j k : string) (ks : list string) :
  In j (add_key ks k) -> In j ks \/ j = k.
Proof.
  unfold add_key. destruct (existsb _ ks); [now left|].
  intros H. apply in_app_or in H. destruct H as [H|[H|[]]]; [now left|now right].
Qed.

Lemma conn_id_keyword_clash_witness :
  all_space "conn1" = false /\
  exists err,
    exn_cls err = OtherException "TypeError" /\
    get_engine (module_registry (fun _ => inr (fake_hook (inl refused)))
                  (fun _ => inr (fake_hook (inl refused))))
      "postgres" "conn1" (Some [("postgres_conn_id", VStr "other")]) None
    = ([Instantiate "PostgresStrategy";
        CreateHook "PostgresStrategy" "conn1" [("postgres_conn_id", VStr "other")]],
       inl err).
Proof.
  split; [reflexivity|].
  exact (proj1 (proj2 (proj2 (conn_id_keyword_clash
                                (fun _ => inr (fake_hook (inl refused)))
                                (fun _ => inr (fake_hook (inl refused)))
                                "conn1" (Some [("postgres_conn_id", VStr "other")])
                                None eq_refl)))
           eq_refl).
Defined.

(** X10.  Two invariants of the registry.  Starting from a registry whose keys are
    distinct and lower-cased, the empty one for instance, any sequence of
    registrations leaves a registry whose keys are distinct and lower-cased. *)
Theorem registry_keys_normalised (regs : list (string * StrategyCls)) (r0 : Registry) :
  dict_wf r0 = true ->
  (forall k, In k (dict_keys r0) -> lower k = k) ->
  dict_wf (register_all regs r0) = true /\
  (forall k, In k (dict_keys (register_all regs r0)) -> lower k = k).
Proof.
  revert r0. induction regs as [|[n c] regs IH]; intros r0 Hwf Hlow; simpl.
  - split; assumption.
  - apply IH.
    + now apply dict_set_wf.
    + intros k Hk. unfold register_strategy in Hk. rewrite dict_keys_set in Hk.
      apply in_add_key in Hk. destruct Hk as [Hk| ->]; [now apply Hlow|].
      apply lower_idem.
Qed.

Lemma registry_keys_normalised_witness :
  dict_wf (register_all [("Postgres", healthy "A"); ("MSSQL", healthy "B");
                         ("postgres", healthy "C")] []) = true /\
  dict_keys (register_all [("Postgres", healthy "A"); ("MSSQL", healthy "B");
                           ("postgres", healthy "C")] [])
  = ["postgres"; "mssql"].
Proof.
  split; [|reflexivity].
  exact (proj1 (registry_keys_normalised
                  [("Postgres", healthy "A"); ("MSSQL", healthy "B");
                   ("postgres", healthy "C")] [] eq_refl (fun k H => match H with end))).
Defined.

(** X11.  The last registration wins, over any sequence of registrations.  After
    them a call runs the class of the last registration whose name equals the
    requested type up to case; when there is none, the call is what it was
    on the registry before them. *)
Theorem last_registration_wins (regs : list (string * StrategyCls)) (r0 : Registry)
    (db_type conn_id : string) (ho so : option Options) :
  dict_get (lower db_type) (register_all regs r0)
  = match last_registered regs (lower db_type) with
    | Some cls => Some cls
    | None => dict_get (lower db_type) r0
    end /\
  match last_registered regs (lower db_type) with
  | Some cls =>
      get_engine (register_all regs r0) db_type conn_id ho so
      = dispatch cls conn_id ho so
  | None =>
      outcome (get_engine (register_all regs r0) db_type conn_id ho so)
      = match dict_get (lower db_type) r0 with
        | Some _ => outcome (get_engine r0 db_type conn_id ho so)
        | None => inl (unsupported_error db_type (dict_keys (register_all regs r0)))
        end
  end.
Proof.
  assert (H : forall regs r0 k,
             dict_get k (register_all regs r0)
             = match last_registered regs k with
               | Some cls => Some cls
               | None => dict_get k r0
               end).
  { clear. induction regs as [|[n c] regs IH]; intros r0 k; simpl; [reflexivity|].
    rewrite IH. destruct (last_registered regs k); [reflexivity|].
    unfold register_strategy. rewrite dict_get_set.
    now destruct (String.eqb (lower n) k). }
  split; [apply H|].
  specialize (H regs r0 (lower db_type)).
  destruct (last_registered regs (lower db_type)) as [cls|].
  - now apply get_engine_registered.
  - unfold get_engine. rewrite H.
    now destruct (dict_get (lower db_type) r0).
Qed.

(** ** The logging set-up: the level *)

(** X16.  A call that returns has returned the logger of that name with its level
    set to the level asked for: the level constant the name stands for, in
    any case of letters, and [INFO] when the [logging] module has no such
    attribute. *)
Theorem setup_logging_sets_level (env : Env) (st st' : Logging)
    (logger_name level_name : string) (log_file : option PathLike)
    (max_file_size backup_count : Z) (enable_console prevent_duplicates : bool)
    (out : list Effect) (ref : Ref) :
  setup_logging env logger_name level_name log_file max_file_size backup_count
    enable_console prevent_duplicates st = (out, st', inr ref) ->
  ref = ref_of st logger_name /\
  resolved_level env level_name = inr (level (deref st' ref)) /\
  (logging_attr env (upper level_name) = None ->
   level (deref st' ref) = INFO_code /\
   exists rest,
     out = Print [Lit "Invalid log level '"; FStr level_name;
                  Lit "'. Defaulting to INFO."] :: rest).
Proof.
  rewrite setup_logging_run.
  destruct (resolved_level env level_name) as [e|z] eqn:Hlv; [discriminate|].
  assert (Hz : logging_attr env (upper level_name) = None -> z = INFO_code).
  { intros Hn. unfold resolved_level in Hlv. rewrite Hn in Hlv. now injection Hlv. }
  unfold level_prints.
  destruct (has_handlers (the_logger st logger_name)).
  - intros H. injection H as <- <- <-. rewrite deref_update.
    split; [reflexivity|]. split; [reflexivity|].
    intros Hn. rewrite Hn. split; [now apply Hz|]. now exists [].
  - destruct (snd (file_steps env log_file)); [discriminate|].
    intros H. injection H as <- <- <-. rewrite deref_update.
    split; [reflexivity|]. split; [reflexivity|].
    intros Hn. rewrite Hn. split; [now apply Hz|].
    now exists (fst (file_steps env log_file)).
Qed.

Lemma setup_logging_sets_level_witness :
  exists st' out,
    setup_logging std_env "etl" "verbose" None 1024 5 true true after_first_call
    = (out, st', inr (Named "etl")) /\
    level (deref st' (Named "etl")) = 20%Z.
Proof.
  eexists. eexists. split; [reflexivity|].
  exact (proj1 (proj2 (proj2 (setup_logging_sets_level std_env after_first_call _
                                "etl" "verbose" None 1024 5 true true _ (Named "etl")
                                eq_refl)) eq_refl)).
Defined.
